(** * A/B test calculator: statistics, validation and recommendation engine

    Shallow embedding of the computational core of the [ABTestCalculator]
    component (statistical utilities, [validateInputs], [calculateResults],
    [getRecommendation]) and the properties established about it.

    JavaScript's [number] is modelled as an extended real: a finite value
    carries an exact real, and the special values [Infinity], [-Infinity]
    and [NaN] follow the IEEE 754 rules the source relies on (division by
    zero, comparisons with [NaN] being false, [Math.max]/[Math.min]
    propagating [NaN]). The model leaves out three things that doubles
    have: rounding, overflow and underflow of finite results, and the
    negative zero (the only zero is [+0]; a form field holding [-0] is not
    represented). The properties below are stated so as not to rest on
    them: they compare results with the expressions the source evaluates,
    or use the order of numbers only. *)

From Stdlib Require Import Reals Lra List String Bool.
From Stdlib Require Import ZArith Lia DecimalString.
Import ListNotations.

Open Scope R_scope.

(** ** JavaScript numbers *)

Module Num.

Inductive number : Type :=
| Fin (r : R)
| PosInf
| NegInf
| NaN.

(** Decisions on reals, as booleans. *)
Definition Rltb (a b : R) : bool := if Rlt_dec a b then true else false.
Definition Rleb (a b : R) : bool := if Rle_dec a b then true else false.
Definition Reqb (a b : R) : bool := if Req_dec_T a b then true else false.

(** [inf_times pos r]: an infinity of the given sign multiplied by the
    finite [r]; [Infinity * 0] is [NaN]. *)
Definition inf_times (pos : bool) (r : R) : number :=
  if Rltb 0 r then (if pos then PosInf else NegInf)
  else if Rltb r 0 then (if pos then NegInf else PosInf)
  else NaN.

Definition add (a b : number) : number :=
  match a, b with
  | NaN, _ | _, NaN => NaN
  | Fin x, Fin y => Fin (x + y)
  | PosInf, NegInf | NegInf, PosInf => NaN
  | PosInf, _ | _, PosInf => PosInf
  | NegInf, _ | _, NegInf => NegInf
  end.

Definition sub (a b : number) : number :=
  match a, b with
  | NaN, _ | _, NaN => NaN
  | Fin x, Fin y => Fin (x - y)
  | PosInf, PosInf | NegInf, NegInf => NaN
  | PosInf, _ | _, NegInf => PosInf
  | NegInf, _ | _, PosInf => NegInf
  end.

Definition mul (a b : number) : number :=
  match a, b with
  | NaN, _ | _, NaN => NaN
  | Fin x, Fin y => Fin (x * y)
  | Fin x, PosInf | PosInf, Fin x => inf_times true x
  | Fin x, NegInf | NegInf, Fin x => inf_times false x
  | PosInf, PosInf | NegInf, NegInf => PosInf
  | PosInf, NegInf | NegInf, PosInf => NegInf
  end.

(** [x / 0], for the zero [+0] of the model, is an infinity with the sign
    of [x], and [0 / 0] is [NaN]. *)
Definition div (a b : number) : number :=
  match a, b with
  | NaN, _ | _, NaN => NaN
  | Fin x, Fin y => if Reqb y 0 then inf_times true x else Fin (x / y)
  | Fin _, (PosInf | NegInf) => Fin 0
  | PosInf, Fin y => if Rltb y 0 then NegInf else PosInf
  | NegInf, Fin y => if Rltb y 0 then PosInf else NegInf
  | (PosInf | NegInf), (PosInf | NegInf) => NaN
  end.

(** [Math.sqrt] *)
Definition sqrt (a : number) : number :=
  match a with
  | Fin x => if Rltb x 0 then NaN else Fin (R_sqrt.sqrt x)
  | PosInf => PosInf
  | NegInf | NaN => NaN
  end.

(** [Math.abs] *)
Definition abs (a : number) : number :=
  match a with
  | Fin x => Fin (Rabs x)
  | PosInf | NegInf => PosInf
  | NaN => NaN
  end.

(** [Math.pow(a, 2)] *)
Definition pow2 (a : number) : number := mul a a.

(** [Math.max] and [Math.min] on two arguments: [NaN] if either is. *)
Definition max (a b : number) : number :=
  match a, b with
  | NaN, _ | _, NaN => NaN
  | PosInf, _ | _, PosInf => PosInf
  | NegInf, x | x, NegInf => x
  | Fin x, Fin y => Fin (Rmax x y)
  end.

Definition min (a b : number) : number :=
  match a, b with
  | NaN, _ | _, NaN => NaN
  | NegInf, _ | _, NegInf => NegInf
  | PosInf, x | x, PosInf => x
  | Fin x, Fin y => Fin (Rmin x y)
  end.

(** Comparisons: every comparison with [NaN] is false. *)
Definition lt (a b : number) : bool :=
  match a, b with
  | NaN, _ | _, NaN => false
  | Fin x, Fin y => Rltb x y
  | _, NegInf => false
  | NegInf, _ => true
  | PosInf, _ => false
  | Fin _, PosInf => true
  end.

Definition le (a b : number) : bool :=
  match a, b with
  | NaN, _ | _, NaN => false
  | Fin x, Fin y => Rleb x y
  | NegInf, _ => true
  | _, PosInf => true
  | _, NegInf => false
  | PosInf, _ => false
  end.

Definition gt (a b : number) : bool := lt b a.
Definition ge (a b : number) : bool := le b a.

(** Strict equality [===] on numbers. *)
Definition eq (a b : number) : bool :=
  match a, b with
  | Fin x, Fin y => Reqb x y
  | PosInf, PosInf | NegInf, NegInf => true
  | _, _ => false
  end.

Definition is_finite (a : number) : Prop :=
  match a with Fin _ => True | _ => False end.

End Num.

Import Num.

Coercion Fin : R >-> number.

Declare Scope num_scope.
Delimit Scope num_scope with num.
Bind Scope num_scope with number.
Infix "+" := add : num_scope.
Infix "-" := sub : num_scope.
Infix "*" := mul : num_scope.
Infix "/" := div : num_scope.
Infix "<?" := lt (at level 70) : num_scope.
Infix "<=?" := le (at level 70) : num_scope.
Infix ">?" := gt (at level 70) : num_scope.
Infix ">=?" := ge (at level 70) : num_scope.
Infix "===" := eq (at level 70) : num_scope.

(** ** Statistical utility functions *)

Definition calculateConversionRate (conversions visitors : number) : number :=
  if (visitors === 0)%num then 0
  else ((conversions / visitors) * 100)%num.

Definition calculateStandardError (rate visitors : number) : number :=
  if (visitors === 0)%num then 0
  else
    let proportion := (rate / 100)%num in
    (Num.sqrt ((proportion * (1 - proportion)) / visitors) * 100)%num.

Definition calculateConfidenceInterval (rate visitors : number)
  : number * number :=
  let z : number := 1.96 in
  let se := Num.sqrt ((rate / 100 * (1 - rate / 100)) / visitors)%num in
  (Num.max 0 (rate - (z * se * 100))%num,
   Num.min 100 (rate + (z * se * 100))%num).

(** ** Data model *)

(** The form fields are filled with [Number(e.target.value)] of numeric
    inputs, so the raw inputs are finite numbers. *)
Module BusinessMetrics.
Record t : Type := mk
  { pipelineValue : R;
    closeRate : R;
    monthlyVisitors : R }.
End BusinessMetrics.

Module TestVariant.
Record t : Type := mk
  { name : string;
    visitors : R;
    conversions : R }.
End TestVariant.

(** [Record<string, TestVariant>]: the entries of the object in insertion
    order, which is the order [Object.entries] enumerates them in. *)
Definition Variants : Type := list (string * TestVariant.t).

(** [variants[key]]; [None] stands for [undefined]. *)
Fixpoint lookup (key : string) (variants : Variants) : option TestVariant.t :=
  match variants with
  | [] => None
  | (k, v) :: rest => if String.eqb k key then Some v else lookup key rest
  end.

Inductive Level : Type := low | medium | high.

Module VariantResult.
Record t : Type := mk
  { key : string;
    name : string;
    rate : number;
    error : number;
    revenue : number;
    visitors : number }.
End VariantResult.

Module RevenueImpact.
Record t : Type := mk
  { monthly : number;
    annual : number }.
End RevenueImpact.

Module TestResults.
Record t : Type := mk
  { winner : string;
    improvement : number;
    monthlyRevenue : number;
    riskLevel : Level;
    variants : list VariantResult.t;
    revenueImpact : RevenueImpact.t }.
End TestResults.

Module Recommendation.
Record t : Type := mk
  { text : string;
    color : string;
    confidence : Level;
    action : string }.
End Recommendation.

Module ValidationError.
Record t : Type := mk
  { field : string;
    message : string }.
End ValidationError.

Module ValidationResult.
Record t : Type := mk
  { isValid : bool;
    errors : list ValidationError.t }.
End ValidationResult.

(** ** Exceptions *)

(** A computation either returns a value or throws (here always a
    [TypeError]: a property read on [undefined], or [reduce] on an empty
    array without an initial value). *)
Inductive completion (A : Type) : Type :=
| Return (a : A)
| Throw.
Arguments Return {A} a.
Arguments Throw {A}.

Definition bind {A B : Type} (c : completion A) (k : A -> completion B)
  : completion B :=
  match c with
  | Return a => k a
  | Throw => Throw
  end.

Notation "x <- c ;; k" := (bind c (fun x => k))
  (at level 61, c at next level, right associativity).

(** Reading a property of [variants[key]]. *)
Definition getVariant (key : string) (variants : Variants)
  : completion TestVariant.t :=
  match lookup key variants with
  | Some v => Return v
  | None => Throw
  end.

(** [Array.prototype.reduce] without an initial value. *)
Definition reduce {A : Type} (f : A -> A -> A) (l : list A) : completion A :=
  match l with
  | [] => Throw
  | x :: xs => Return (fold_left f xs x)
  end.

(** [.filter(result => result !== null)] *)
Fixpoint filterNonNull {A : Type} (l : list (option A)) : list A :=
  match l with
  | [] => []
  | Some x :: rest => x :: filterNonNull rest
  | None :: rest => filterNonNull rest
  end.

(** ** Validation *)

Open Scope string_scope.
Open Scope list_scope.

Definition pushIf (cond : bool) (e : ValidationError.t)
  : list ValidationError.t :=
  if cond then [e] else [].

(** The errors pushed for the business metrics, in order. *)
Definition validateBusinessMetrics (businessMetrics : BusinessMetrics.t)
  : list ValidationError.t :=
  let pipelineValue : number := BusinessMetrics.pipelineValue businessMetrics in
  let closeRate : number := BusinessMetrics.closeRate businessMetrics in
  let monthlyVisitors : number := BusinessMetrics.monthlyVisitors businessMetrics in
  pushIf (pipelineValue <=? 0)%num
    (ValidationError.mk "pipelineValue" "Pipeline value must be greater than 0")
  ++ pushIf ((closeRate <=? 0)%num || (closeRate >? 100)%num)
    (ValidationError.mk "closeRate" "Close rate must be between 0 and 100")
  ++ pushIf (monthlyVisitors <=? 0)%num
    (ValidationError.mk "monthlyVisitors" "Monthly visitors must be greater than 0").

(** Body of the [forEach] callback over [['control', 'variant']]: the errors
    pushed for one mandatory entry. *)
Definition validateVariant (key : string) (variant : TestVariant.t)
  : list ValidationError.t :=
  let name := TestVariant.name variant in
  let visitors : number := TestVariant.visitors variant in
  let conversions : number := TestVariant.conversions variant in
  pushIf (visitors <=? 0)%num
    (ValidationError.mk (key ++ "Visitors")%string
       (name ++ " visitors must be greater than 0")%string)
  ++ pushIf (conversions <? 0)%num
    (ValidationError.mk (key ++ "Conversions")%string
       (name ++ " conversions cannot be negative")%string)
  ++ pushIf (conversions >? visitors)%num
    (ValidationError.mk (key ++ "Conversions")%string
       (name ++ " conversions cannot exceed visitors")%string).

Definition validateInputs (businessMetrics : BusinessMetrics.t)
  (variants : Variants) : completion ValidationResult.t :=
  control <- getVariant "control" variants ;;
  variant <- getVariant "variant" variants ;;
  let errors :=
    validateBusinessMetrics businessMetrics
    ++ validateVariant "control" control
    ++ validateVariant "variant" variant in
  Return (ValidationResult.mk (Nat.eqb (List.length errors) 0) errors).

(** ** Results *)

(** The record both [map] callbacks of [calculateResults] build for an
    entry. *)
Definition variantResult (businessMetrics : BusinessMetrics.t)
  (key : string) (variant : TestVariant.t) : VariantResult.t :=
  let monthlyVisitors : number := BusinessMetrics.monthlyVisitors businessMetrics in
  let pipelineValue : number := BusinessMetrics.pipelineValue businessMetrics in
  let closeRate : number := BusinessMetrics.closeRate businessMetrics in
  let visitors : number := TestVariant.visitors variant in
  let conversions : number := TestVariant.conversions variant in
  let rate := calculateConversionRate conversions visitors in
  VariantResult.mk key (TestVariant.name variant) rate
    (calculateStandardError rate visitors)
    (monthlyVisitors * (rate / 100) * pipelineValue * (closeRate / 100))%num
    visitors.

(** [!['control', 'variant'].includes(key)] *)
Definition isAdditionalKey (key : string) : bool :=
  negb (existsb (String.eqb key) ["control"; "variant"]).

(** The guard of the second [map] callback: the entry has no valid data. *)
Definition hasInvalidData (variant : TestVariant.t) : bool :=
  let visitors : number := TestVariant.visitors variant in
  let conversions : number := TestVariant.conversions variant in
  (visitors <=? 0)%num || (conversions <? 0)%num || (conversions >? visitors)%num.

Definition additionalVariants (businessMetrics : BusinessMetrics.t)
  (variants : Variants) : list VariantResult.t :=
  filterNonNull
    (map (fun entry : string * TestVariant.t =>
            let (key, variant) := entry in
            if hasInvalidData variant then None
            else Some (variantResult businessMetrics key variant))
       (filter (fun entry : string * TestVariant.t => isAdditionalKey (fst entry))
          variants)).

Definition isControl (v : VariantResult.t) : bool :=
  String.eqb (VariantResult.key v) "control".

(** The callback of [reduce]: keep [best] unless [current] has a strictly
    greater rate. *)
Definition better (best current : VariantResult.t) : VariantResult.t :=
  if (VariantResult.rate current >? VariantResult.rate best)%num
  then current else best.

Definition zScore (variant controlResult : VariantResult.t) : number :=
  (Num.abs (VariantResult.rate variant - VariantResult.rate controlResult)
   / Num.sqrt (Num.pow2 (VariantResult.error variant)
               + Num.pow2 (VariantResult.error controlResult)))%num.

Definition isSignificant (controlResult variant : VariantResult.t) : bool :=
  if isControl variant then true
  else (zScore variant controlResult >? 1.96)%num.

Definition improvementOf (bestVariant controlResult : VariantResult.t)
  : number :=
  (((VariantResult.rate bestVariant - VariantResult.rate controlResult)
    / VariantResult.rate controlResult) * 100)%num.

(** The body of the [try] block of [calculateResults]. *)
Definition computeResults (businessMetrics : BusinessMetrics.t)
  (variants : Variants) : completion TestResults.t :=
  control <- getVariant "control" variants ;;
  variant <- getVariant "variant" variants ;;
  let variantResults :=
    [variantResult businessMetrics "control" control;
     variantResult businessMetrics "variant" variant]
    ++ additionalVariants businessMetrics variants in
  controlResult <-
    match find isControl variantResults with
    | Some c => Return c
    | None => Throw
    end ;;
  bestVariant <-
    reduce better (filter (fun v => negb (isControl v)) variantResults) ;;
  let improvement := improvementOf bestVariant controlResult in
  let monthlyImpact :=
    (VariantResult.revenue bestVariant - VariantResult.revenue controlResult)%num in
  let significantResults := map (isSignificant controlResult) variantResults in
  Return
    (TestResults.mk
       (if (VariantResult.rate bestVariant >? VariantResult.rate controlResult)%num
        then VariantResult.name bestVariant
        else VariantResult.name controlResult)
       improvement
       (VariantResult.revenue bestVariant)
       (if forallb (fun s : bool => s) significantResults
        then (if (Num.abs improvement >? 20)%num then low else medium)
        else high)
       variantResults
       (RevenueImpact.mk monthlyImpact (monthlyImpact * 12)%num)).

(** [calculateResults]: [Return None] is the [null] result; an exception of
    the [try] block is caught and turned into [null], one of
    [validateInputs] is not. *)
Definition calculateResults (businessMetrics : BusinessMetrics.t)
  (variants : Variants) : completion (option TestResults.t) :=
  validation <- validateInputs businessMetrics variants ;;
  if negb (ValidationResult.isValid validation) then Return None
  else
    match computeResults businessMetrics variants with
    | Return results => Return (Some results)
    | Throw => Return None
    end.

(** ** Recommendation *)

Definition getRecommendation (improvement sampleSize requiredSample : number)
  : Recommendation.t :=
  let sampleConfidence :=
    if (sampleSize >=? requiredSample)%num then high
    else if (sampleSize >=? requiredSample * 0.5)%num then medium
    else low in
  match sampleConfidence with
  | low =>
      Recommendation.mk "Need More Data" "#6B7280" low
        "Continue test to reach required sample size"
  | _ =>
      if (improvement >? 10)%num then
        Recommendation.mk "Implement Variant" "#059669" sampleConfidence
          "Strong positive impact on revenue"
      else if (improvement <? Fin (-10))%num then
        Recommendation.mk "Keep Control" "#DC2626" sampleConfidence
          "Variant shows significant decline"
      else
        Recommendation.mk "No Clear Winner" "#5e62d1" sampleConfidence
          "Differences are not significant enough"
  end.

(** [within lo hi x]: [x] is a finite number between [lo] and [hi]. *)
Definition within (lo hi : R) (x : number) : Prop :=
  exists r : R, x = Fin r /\ lo <= r <= hi.

(** ** Validated inputs *)

(** The constraints [validateInputs] checks on the business metrics. *)
Definition validMetrics (bm : BusinessMetrics.t) : Prop :=
  0 < BusinessMetrics.pipelineValue bm
  /\ 0 < BusinessMetrics.closeRate bm <= 100
  /\ 0 < BusinessMetrics.monthlyVisitors bm.

(** The constraints on an entry: checked by [validateInputs] on the two
    mandatory entries and by [hasInvalidData] on the additional ones. *)
Definition validData (v : TestVariant.t) : Prop :=
  0 < TestVariant.visitors v
  /\ 0 <= TestVariant.conversions v
  /\ TestVariant.conversions v <= TestVariant.visitors v.

(** The inputs pass validation: [validateInputs] returns [isValid: true]. *)
Definition validated (bm : BusinessMetrics.t) (vs : Variants) : Prop :=
  exists result : ValidationResult.t,
    validateInputs bm vs = Return result
    /\ ValidationResult.isValid result = true.

(** The entries [calculateResults] selects the best variant from. *)
Definition nonControl (results : list VariantResult.t) : list VariantResult.t :=
  filter (fun v => negb (isControl v)) results.

(** Two results that differ at most in their revenue. *)
Definition sameStatistics (x y : VariantResult.t) : Prop :=
  VariantResult.key x = VariantResult.key y
  /\ VariantResult.name x = VariantResult.name y
  /\ VariantResult.rate x = VariantResult.rate y
  /\ VariantResult.error x = VariantResult.error y
  /\ VariantResult.visitors x = VariantResult.visitors y.

(** ** Expected results, in terms of the entries *)

(** [selection P l l']: [l'] holds the elements of [l] that satisfy [P],
    in the order they have in [l]. *)
Inductive selection {A : Type} (P : A -> Prop) : list A -> list A -> Prop :=
| selection_nil : selection P [] []
| selection_keep (a : A) (l l' : list A) :
    P a -> selection P l l' -> selection P (a :: l) (a :: l')
| selection_skip (a : A) (l l' : list A) :
    ~ P a -> selection P l l' -> selection P (a :: l) l'.

(** An additional (3rd/4th) entry with valid data: its key is neither
    "control" nor "variant", it has visitors, and its conversions are
    neither negative nor more than its visitors. *)
Definition additionalValid (entry : string * TestVariant.t) : Prop :=
  fst entry <> "control" /\ fst entry <> "variant"
  /\ 0 < TestVariant.visitors (snd entry)
  /\ 0 <= TestVariant.conversions (snd entry)
  /\ TestVariant.conversions (snd entry) <= TestVariant.visitors (snd entry).

(** The conversion rate of an entry with visitors:
    [(conversions / visitors) * 100]. *)
Definition expectedRate (e : TestVariant.t) : number :=
  ((Fin (TestVariant.conversions e) / Fin (TestVariant.visitors e)) * 100)%num.

(** The standard error of an entry with visitors:
    [sqrt((p * (1 - p)) / visitors) * 100] for the proportion
    [p = rate / 100]. *)
Definition expectedError (e : TestVariant.t) : number :=
  (Num.sqrt ((expectedRate e / 100 * (1 - expectedRate e / 100))
             / Fin (TestVariant.visitors e)) * 100)%num.

(** The monthly revenue at the rate of an entry:
    [monthlyVisitors * (rate / 100) * pipelineValue * (closeRate / 100)]. *)
Definition expectedRevenue (bm : BusinessMetrics.t) (e : TestVariant.t)
  : number :=
  (Fin (BusinessMetrics.monthlyVisitors bm) * (expectedRate e / 100)
   * Fin (BusinessMetrics.pipelineValue bm)
   * (Fin (BusinessMetrics.closeRate bm) / 100))%num.

(** The z-score of an entry against the control entry:
    [|rate - control rate| / sqrt(error^2 + control error^2)]. *)
Definition expectedZScore (e control : TestVariant.t) : number :=
  (Num.abs (expectedRate e - expectedRate control)
   / Num.sqrt (Num.pow2 (expectedError e) + Num.pow2 (expectedError control)))%num.

(** The improvement of an entry over the control entry:
    [((rate - control rate) / control rate) * 100]. *)
Definition expectedImprovement (e control : TestVariant.t) : number :=
  (((expectedRate e - expectedRate control) / expectedRate control) * 100)%num.

(** [describes bm entry x]: the result [x] is the one expected for the
    entry, field by field. *)
Definition describes (bm : BusinessMetrics.t) (entry : string * TestVariant.t)
  (x : VariantResult.t) : Prop :=
  VariantResult.key x = fst entry
  /\ VariantResult.name x = TestVariant.name (snd entry)
  /\ VariantResult.rate x = expectedRate (snd entry)
  /\ VariantResult.error x = expectedError (snd entry)
  /\ VariantResult.revenue x = expectedRevenue bm (snd entry)
  /\ VariantResult.visitors x = Fin (TestVariant.visitors (snd entry)).

(** ** Sample inputs *)

Definition sampleMetrics : BusinessMetrics.t := BusinessMetrics.mk 1000 20 10000.

Definition sampleControl : TestVariant.t := TestVariant.mk "Control" 1000 100.
Definition sampleVariant : TestVariant.t := TestVariant.mk "Variant" 1000 150.

Definition sampleVariants : Variants :=
  [("control", sampleControl); ("variant", sampleVariant)].

(** A control entry without any conversion. *)
Definition zeroControlVariants : Variants :=
  [("control", TestVariant.mk "Control" 1000 0); ("variant", sampleVariant)].

(** No conversion in either entry. *)
Definition zeroRateVariants : Variants :=
  [("control", TestVariant.mk "Control" 1000 0);
   ("variant", TestVariant.mk "Variant" 1000 0)].

(** Two additional entries: an empty one and one tied with "variant". *)
Definition fourVariants : Variants :=
  sampleVariants
  ++ [("control1", TestVariant.mk "Control 1" 0 0);
      ("variant1", TestVariant.mk "Variant 1" 2000 300)].

(** A state left by removing "control1" from a state of four entries. *)
Definition threeVariants : Variants :=
  sampleVariants ++ [("variant1", TestVariant.mk "Variant 1" 2000 300)].

(** An additional entry with more conversions than visitors. *)
Definition excludedVariants : Variants :=
  sampleVariants ++ [("variant1", TestVariant.mk "Variant 1" 4000 5000)].




(** ** Form state *)

(** The initial state of the [variants] object. *)
Definition initialVariants : Variants :=
  [("control", TestVariant.mk "Control" 0 0);
   ("variant", TestVariant.mk "Variant" 0 0)].

(** [{ ...prev, [key]: value }]: the value of an existing key is replaced
    in place, a new key is added after the others. *)
Fixpoint setEntry (key : string) (value : TestVariant.t) (prev : Variants)
  : Variants :=
  match prev with
  | [] => [(key, value)]
  | (k, v) :: rest =>
      if String.eqb k key then (key, value) :: rest
      else (k, v) :: setEntry key value rest
  end.

(** [const { [key]: _, ...rest } = variants] *)
Definition removeEntry (key : string) (variants : Variants) : Variants :=
  filter (fun entry : string * TestVariant.t => negb (String.eqb (fst entry) key))
    variants.

(** The [onChange] handlers of an entry whose fields are rendered:
    [{ ...prev, [key]: { ...prev[key], field: value } }]. *)
Definition setName (key : string) (variant : TestVariant.t) (value : string)
  (prev : Variants) : Variants :=
  setEntry key
    (TestVariant.mk value (TestVariant.visitors variant)
       (TestVariant.conversions variant)) prev.

Definition setVisitors (key : string) (variant : TestVariant.t) (value : R)
  (prev : Variants) : Variants :=
  setEntry key
    (TestVariant.mk (TestVariant.name variant) value
       (TestVariant.conversions variant)) prev.

Definition setConversions (key : string) (variant : TestVariant.t) (value : R)
  (prev : Variants) : Variants :=
  setEntry key
    (TestVariant.mk (TestVariant.name variant) (TestVariant.visitors variant)
       value) prev.

(** A number of entries in a template literal. *)
Definition showIndex (n : nat) : string :=
  NilEmpty.string_of_uint (Nat.to_uint n).

(** The [onClick] handler of "Add Test Pair". *)
Definition addTestPair (variants : Variants) : Variants :=
  let currentIndex := Nat.div (List.length variants) 2 in
  setEntry ("variant" ++ showIndex currentIndex)%string
    (TestVariant.mk ("Variant " ++ showIndex currentIndex)%string 0 0)
    (setEntry ("control" ++ showIndex currentIndex)%string
       (TestVariant.mk ("Control " ++ showIndex currentIndex)%string 0 0)
       variants).

(** One user action on the test data. The fields of an entry are rendered
    for the keys of the object only, the delete button for the additional
    ones, and "Add Test Pair" while there are fewer than four entries. *)
Inductive step (variants : Variants) : Variants -> Prop :=
| step_name (key : string) (variant : TestVariant.t) (value : string) :
    lookup key variants = Some variant ->
    step variants (setName key variant value variants)
| step_visitors (key : string) (variant : TestVariant.t) (value : R) :
    lookup key variants = Some variant ->
    step variants (setVisitors key variant value variants)
| step_conversions (key : string) (variant : TestVariant.t) (value : R) :
    lookup key variants = Some variant ->
    step variants (setConversions key variant value variants)
| step_remove (key : string) (variant : TestVariant.t) :
    lookup key variants = Some variant ->
    isAdditionalKey key = true ->
    step variants (removeEntry key variants)
| step_add :
    (List.length variants < 4)%nat ->
    step variants (addTestPair variants).

Inductive reachable : Variants -> Prop :=
| reachable_initial : reachable initialVariants
| reachable_step (variants variants' : Variants) :
    reachable variants -> step variants variants' -> reachable variants'.

(** ** Presentation of the results *)

(** [totalVisitors] of [renderAnalysis]: the visitors of the results. *)
Definition renderAnalysis_totalVisitors (results : TestResults.t) : number :=
  fold_left (fun (sum : number) (v : VariantResult.t) =>
               (sum + VariantResult.visitors v)%num)
    (TestResults.variants results) 0.

(** [totalVisitors] of [exportToPDF]: the visitors of every entry of the
    form state. *)
Definition exportToPDF_totalVisitors (variants : Variants) : number :=
  fold_left (fun (sum : number) (v : TestVariant.t) =>
               (sum + Fin (TestVariant.visitors v))%num)
    (map snd variants) 0.

(** The recommendation [renderAnalysis] displays. *)
Definition renderAnalysis_recommendation (results : TestResults.t)
  : Recommendation.t :=
  getRecommendation (TestResults.improvement results)
    (renderAnalysis_totalVisitors results) 10000.

(** The recommendation [exportToPDF] prints. *)
Definition exportToPDF_recommendation (variants : Variants)
  (results : TestResults.t) : Recommendation.t :=
  getRecommendation (TestResults.improvement results)
    (exportToPDF_totalVisitors variants) 10000.

(** The confidence interval [renderAnalysis] and [renderChart] compute for
    a result: the visitors are read from the result of the same key. *)
Definition renderAnalysis_interval (results : TestResults.t)
  (variant : VariantResult.t) : completion (number * number) :=
  match find (fun v => String.eqb (VariantResult.key v) (VariantResult.key variant))
          (TestResults.variants results) with
  | Some v =>
      Return (calculateConfidenceInterval (VariantResult.rate variant)
                (VariantResult.visitors v))
  | None => Throw
  end.

(** The confidence interval [exportToPDF] prints for a result. *)
Definition exportToPDF_interval (variant : VariantResult.t) : number * number :=
  calculateConfidenceInterval (VariantResult.rate variant)
    (VariantResult.visitors variant).

(** [variantImprovement] of [renderAnalysis]. *)
Definition renderAnalysis_variantImprovement
  (controlVariant variant : VariantResult.t) : number :=
  if isControl variant then 0
  else (((VariantResult.rate variant - VariantResult.rate controlVariant)
         / VariantResult.rate controlVariant) * 100)%num.

(** [rgb] *)
Definition rgb (r g b : number) : number := (r + g * 256 + b * 65536)%num.

(** ** Currency formatting *)

Module FormatOptions.
Record t : Type := mk
  { showSign : option bool;
    minimumFractionDigits : option number }.
End FormatOptions.

Section FormatCurrency.
(** [new Intl.NumberFormat('en-US', { style: 'currency', currency: 'USD',
    minimumFractionDigits, maximumFractionDigits }).format(value)], by its
    two fraction digit settings (both set to [minimumFractionDigits]). *)
Variable numberFormat : number -> number -> string.

Definition formatCurrency (value : number) (options : option FormatOptions.t)
  : string :=
  let showSign :=
    match options with
    | Some o => match FormatOptions.showSign o with Some b => b | None => false end
    | None => false
    end in
  let minimumFractionDigits : number :=
    match options with
    | Some o =>
        match FormatOptions.minimumFractionDigits o with
        | Some d => d
        | None => 0
        end
    | None => 0
    end in
  let formatted := numberFormat minimumFractionDigits (Num.abs value) in
  if showSign && (value >? 0)%num then ("+" ++ formatted)%string else formatted.
End FormatCurrency.

(** * Properties *)

(** ** Real decisions and number comparisons *)

Section RealDecisions.
Variables a b : R.

Lemma Rltb_true : a < b -> Rltb a b = true.
Proof. intros H; unfold Rltb; destruct (Rlt_dec a b); [reflexivity | contradiction]. Qed.

Lemma Rltb_false : b <= a -> Rltb a b = false.
Proof. intros H; unfold Rltb; destruct (Rlt_dec a b); [exfalso; lra | reflexivity]. Qed.

Lemma Rleb_true : a <= b -> Rleb a b = true.
Proof. intros H; unfold Rleb; destruct (Rle_dec a b); [reflexivity | contradiction]. Qed.

Lemma Rleb_false : b < a -> Rleb a b = false.
Proof. intros H; unfold Rleb; destruct (Rle_dec a b); [exfalso; lra | reflexivity]. Qed.

Lemma Reqb_true : a = b -> Reqb a b = true.
Proof. intros H; unfold Reqb; destruct (Req_dec_T a b); [reflexivity | contradiction]. Qed.

Lemma Reqb_false : a <> b -> Reqb a b = false.
Proof. intros H; unfold Reqb; destruct (Req_dec_T a b); [contradiction | reflexivity]. Qed.

Lemma Rltb_true_iff : Rltb a b = true <-> a < b.
Proof.
  split; [| apply Rltb_true].
  unfold Rltb; destruct (Rlt_dec a b); [trivial | discriminate].
Qed.

Lemma Rltb_false_iff : Rltb a b = false <-> b <= a.
Proof.
  split; [| apply Rltb_false].
  unfold Rltb; destruct (Rlt_dec a b); [discriminate | lra].
Qed.

Lemma Rleb_true_iff : Rleb a b = true <-> a <= b.
Proof.
  split; [| apply Rleb_true].
  unfold Rleb; destruct (Rle_dec a b); [trivial | discriminate].
Qed.

Lemma Rleb_false_iff : Rleb a b = false <-> b < a.
Proof.
  split; [| apply Rleb_false].
  unfold Rleb; destruct (Rle_dec a b); [discriminate | lra].
Qed.
End RealDecisions.

(** Decide the real comparisons of the goal that linear arithmetic settles. *)
Ltac rdecide :=
  repeat match goal with
    | |- context [Rltb ?x ?y] =>
        first [rewrite (Rltb_true x y) by lra | rewrite (Rltb_false x y) by lra]
    | |- context [Rleb ?x ?y] =>
        first [rewrite (Rleb_true x y) by lra | rewrite (Rleb_false x y) by lra]
    | |- context [Reqb ?x ?y] =>
        first [rewrite (Reqb_true x y) by lra | rewrite (Reqb_false x y) by lra]
    end.

(** Turn boolean comparisons of the context into real inequalities. *)
Ltac rreflect :=
  repeat match goal with
    | H : Rltb _ _ = true |- _ => apply Rltb_true_iff in H
    | H : Rltb _ _ = false |- _ => apply Rltb_false_iff in H
    | H : Rleb _ _ = true |- _ => apply Rleb_true_iff in H
    | H : Rleb _ _ = false |- _ => apply Rleb_false_iff in H
    end.

(** Evaluate number operations on arguments whose comparisons [lra] decides. *)
Ltac num_eval :=
  repeat (progress
    (cbv beta iota zeta delta
       [Num.add Num.sub Num.mul Num.div Num.sqrt Num.abs Num.pow2
        Num.max Num.min Num.lt Num.le Num.gt Num.ge Num.eq Num.inf_times];
     rdecide)).

Lemma lt_trans (a b c : number) :
  (a <? b)%num = true -> (b <? c)%num = true -> (a <? c)%num = true.
Proof.
  destruct a, b, c; simpl; try discriminate; try reflexivity.
  intros; rreflect; apply Rltb_true; lra.
Qed.

Lemma le_lt_trans (a b c : number) :
  (a <=? b)%num = true -> (b <? c)%num = true -> (a <? c)%num = true.
Proof.
  destruct a, b, c; simpl; try discriminate; try reflexivity.
  intros; rreflect; apply Rltb_true; lra.
Qed.


Lemma lt_not_ge (a b : number) : (a <? b)%num = true -> (a >=? b)%num = false.
Proof.
  unfold Num.ge; destruct a, b; simpl; try discriminate; try reflexivity.
  intros; rreflect; apply Rleb_false; lra.
Qed.

Lemma not_gt_le (a b : number) :
  is_finite a -> is_finite b -> (a >? b)%num = false -> (a <=? b)%num = true.
Proof.
  unfold Num.gt; destruct a, b; simpl; try contradiction.
  intros _ _ H; rreflect; apply Rleb_true; lra.
Qed.


(** ** Conversion rate *)

Lemma ratio_bounds (c v : R) : 0 < v -> 0 <= c <= v -> 0 <= c / v <= 1.
Proof.
  intros Hv [H0 H1].
  assert (Hi : 0 < / v) by (apply Rinv_0_lt_compat; exact Hv).
  assert (Hr : v * / v = 1) by (apply Rinv_r; lra).
  unfold Rdiv; split; nra.
Qed.

Lemma calculateConversionRate_pos (c v : R) :
  0 < v -> calculateConversionRate c v = Fin (c / v * 100).
Proof.
  intros Hv; unfold calculateConversionRate. num_eval. reflexivity.
Qed.

Lemma calculateConversionRate_zero_conversions (v : R) :
  within 0 0 (calculateConversionRate 0 v).
Proof.
  unfold calculateConversionRate, within.
  destruct (Req_dec_T v 0) as [E | N].
  - subst; num_eval. exists 0; split; [reflexivity | lra].
  - num_eval. exists (0 / v * 100); split; [reflexivity |].
    unfold Rdiv; rewrite Rmult_0_l; lra.
Qed.

(** C5, amended: with [visitors > 0] and [0 <= conversions <= visitors]
    the conversion rate is a finite number between 0 and 100, and with
    [visitors = 0] it is 0 for every [conversions] (also for a
    non-finite one). *)
Theorem calculateConversionRate_range :
  (forall c v : R, 0 < v -> 0 <= c <= v ->
     within 0 100 (calculateConversionRate c v))
  /\ (forall c : number, calculateConversionRate c 0 = 0).
Proof.
  split.
  - intros c v Hv Hc. rewrite calculateConversionRate_pos by exact Hv.
    exists (c / v * 100); split; [reflexivity |].
    pose proof (ratio_bounds c v Hv Hc). lra.
  - intros c. unfold calculateConversionRate. num_eval. reflexivity.
Qed.

Lemma calculateConversionRate_range_witness :
  0 < 1000 /\ 0 <= 150 <= 1000
  /\ within 0 100 (calculateConversionRate 150 1000).
Proof.
  split; [lra |]. split; [lra |].
  apply (proj1 calculateConversionRate_range 150 1000); lra.
Defined.

(** C5 as stated fails: two conversions on one visitor give the rate 200. *)
Lemma calculateConversionRate_above_100 :
  0 < 1 /\ 0 <= 2 /\ calculateConversionRate 2 1 = Fin (2 / 1 * 100)
  /\ ~ within 0 100 (calculateConversionRate 2 1).
Proof.
  assert (E : calculateConversionRate 2 1 = Fin (2 / 1 * 100))
    by (apply calculateConversionRate_pos; lra).
  repeat split; try lra; try exact E.
  intros [r [Hr Hb]]. rewrite E in Hr. injection Hr as Hr. lra.
Qed.

(** ** Confidence interval *)

Lemma proportion_variance_nonneg (rate v : R) :
  0 < v -> 0 <= rate <= 100 -> 0 <= rate / 100 * (1 - rate / 100) / v.
Proof.
  intros Hv Hr.
  assert (Hi : 0 < / v) by (apply Rinv_0_lt_compat; exact Hv).
  unfold Rdiv. apply Rmult_le_pos; [nra | lra].
Qed.

(** With a positive number of visitors the interval is finite, contains the
    rate and lies within [0, 100]. *)
Lemma calculateConfidenceInterval_pos_visitors (rate v : R) :
  0 < v -> 0 <= rate <= 100 ->
  exists lower upper : R,
    calculateConfidenceInterval rate v = (Fin lower, Fin upper)
    /\ 0 <= lower <= rate /\ rate <= upper <= 100.
Proof.
  intros Hv Hr.
  pose proof (proportion_variance_nonneg rate v Hv Hr) as Hx.
  set (x := rate / 100 * (1 - rate / 100) / v) in *.
  pose proof (sqrt_pos x) as Hs.
  exists (Rmax 0 (rate - 1.96 * R_sqrt.sqrt x * 100)),
         (Rmin 100 (rate + 1.96 * R_sqrt.sqrt x * 100)).
  split.
  - unfold calculateConfidenceInterval. num_eval. fold x. num_eval. reflexivity.
  - split.
    + split; [apply Rmax_l |]. apply Rmax_lub; nra.
    + split; [| apply Rmin_l]. apply Rmin_glb; nra.
Qed.





(** ** Recommendation *)

(** C3, amended: with [requiredSample * 0.5 <= sampleSize < requiredSample]
    and [improvement > 10], the sample confidence is medium and the
    improvement test comes first: the recommendation is "Implement Variant"
    with confidence medium. *)
Theorem getRecommendation_medium_sample_implements
  (improvement sampleSize requiredSample : number) :
  (requiredSample * 0.5 <=? sampleSize)%num = true ->
  (sampleSize <? requiredSample)%num = true ->
  (improvement >? 10)%num = true ->
  getRecommendation improvement sampleSize requiredSample
  = Recommendation.mk "Implement Variant" "#059669" medium
      "Strong positive impact on revenue".
Proof.
  intros Hhalf Hlt Himp. unfold getRecommendation.
  rewrite (lt_not_ge _ _ Hlt).
  unfold Num.ge. rewrite Hhalf, Himp. reflexivity.
Qed.

Lemma getRecommendation_medium_sample_implements_witness :
  (Fin 10000 * 0.5 <=? 6000)%num = true
  /\ (Fin 6000 <? 10000)%num = true
  /\ (Fin 15 >? 10)%num = true
  /\ getRecommendation 15 6000 10000
     = Recommendation.mk "Implement Variant" "#059669" medium
         "Strong positive impact on revenue".
Proof.
  assert (H1 : (Fin 10000 * 0.5 <=? 6000)%num = true) by (num_eval; reflexivity).
  assert (H2 : (Fin 6000 <? 10000)%num = true) by (num_eval; reflexivity).
  assert (H3 : (Fin 15 >? 10)%num = true) by (num_eval; reflexivity).
  repeat split; try assumption.
  exact (getRecommendation_medium_sample_implements 15 6000 10000 H1 H2 H3).
Defined.

(** C3 as stated fails: improvement 15 with 6000 visitors out of the 10000
    required is labelled "Implement Variant", not "No Clear Winner". *)
Lemma getRecommendation_not_no_clear_winner :
  (Fin 10000 * 0.5 <=? 6000)%num = true
  /\ (Fin 6000 <? 10000)%num = true
  /\ (Fin 15 >? 10)%num = true
  /\ Recommendation.text (getRecommendation 15 6000 10000) = "Implement Variant"
  /\ Recommendation.text (getRecommendation 15 6000 10000) <> "No Clear Winner".
Proof.
  assert (E : Recommendation.text (getRecommendation 15 6000 10000)
              = "Implement Variant").
  { unfold getRecommendation. num_eval. reflexivity. }
  repeat split; try (num_eval; reflexivity); try exact E.
  rewrite E. discriminate.
Qed.

(** ** Validation *)

Lemma app_nil_iff {A : Type} (l l' : list A) :
  l ++ l' = [] <-> l = [] /\ l' = [].
Proof.
  split.
  - destruct l; simpl; [auto | discriminate].
  - intros [-> ->]; reflexivity.
Qed.

Lemma pushIf_nil (cond : bool) (e : ValidationError.t) :
  pushIf cond e = [] <-> cond = false.
Proof. destruct cond; simpl; split; intros; (reflexivity || discriminate). Qed.

Lemma validateBusinessMetrics_nil (bm : BusinessMetrics.t) :
  validateBusinessMetrics bm = []
  <-> 0 < BusinessMetrics.pipelineValue bm
      /\ 0 < BusinessMetrics.closeRate bm <= 100
      /\ 0 < BusinessMetrics.monthlyVisitors bm.
Proof.
  unfold validateBusinessMetrics.
  rewrite !app_nil_iff, !pushIf_nil, orb_false_iff.
  unfold Num.gt; simpl.
  rewrite !Rleb_false_iff, Rltb_false_iff. tauto.
Qed.

Lemma validateVariant_nil (key : string) (v : TestVariant.t) :
  validateVariant key v = []
  <-> 0 < TestVariant.visitors v
      /\ 0 <= TestVariant.conversions v
      /\ TestVariant.conversions v <= TestVariant.visitors v.
Proof.
  unfold validateVariant.
  rewrite !app_nil_iff, !pushIf_nil.
  unfold Num.gt; simpl.
  rewrite Rleb_false_iff, !Rltb_false_iff. tauto.
Qed.

Lemma isValid_iff (bm : BusinessMetrics.t) (vs : Variants)
  (result : ValidationResult.t) :
  validateInputs bm vs = Return result ->
  ValidationResult.isValid result = true <-> ValidationResult.errors result = [].
Proof.
  unfold validateInputs, getVariant.
  destruct (lookup "control" vs); [| discriminate].
  destruct (lookup "variant" vs); [| discriminate].
  simpl. intros H; injection H as <-. simpl.
  destruct (_ ++ _); simpl; split; intros; (reflexivity || discriminate).
Qed.

Lemma length_zero_iff {A : Type} (l : list A) :
  Nat.eqb (List.length l) 0 = true <-> l = [].
Proof. destruct l; simpl; split; intros; (reflexivity || discriminate). Qed.

(** With both mandatory entries present, [validateInputs] returns the
    errors of the business metrics followed by those of the two entries. *)
Lemma validateInputs_found (bm : BusinessMetrics.t) (vs : Variants)
  (control variant : TestVariant.t) :
  lookup "control" vs = Some control ->
  lookup "variant" vs = Some variant ->
  validateInputs bm vs
  = Return
      (let errors :=
         validateBusinessMetrics bm
         ++ validateVariant "control" control
         ++ validateVariant "variant" variant in
       ValidationResult.mk (Nat.eqb (List.length errors) 0) errors).
Proof.
  intros Hc Hv. unfold validateInputs, getVariant. rewrite Hc, Hv. reflexivity.
Qed.

Lemma errors_nil_iff (bm : BusinessMetrics.t) (control variant : TestVariant.t) :
  validateBusinessMetrics bm
  ++ validateVariant "control" control
  ++ validateVariant "variant" variant = []
  <-> validMetrics bm /\ validData control /\ validData variant.
Proof.
  rewrite !app_nil_iff, validateBusinessMetrics_nil, !validateVariant_nil.
  unfold validMetrics, validData. tauto.
Qed.

(** C7: [validateInputs] returns an empty error list exactly when the
    business metrics and the two mandatory entries satisfy their
    constraints ([isValid] is then true), and a control entry without
    visitors produces an error on the field "controlVisitors". *)
Theorem validateInputs_empty_iff (bm : BusinessMetrics.t) (vs : Variants)
  (control variant : TestVariant.t) :
  lookup "control" vs = Some control ->
  lookup "variant" vs = Some variant ->
  exists result : ValidationResult.t,
    validateInputs bm vs = Return result
    /\ (ValidationResult.isValid result = true
        <-> ValidationResult.errors result = [])
    /\ (ValidationResult.errors result = []
        <-> 0 < BusinessMetrics.pipelineValue bm
            /\ 0 < BusinessMetrics.closeRate bm <= 100
            /\ 0 < BusinessMetrics.monthlyVisitors bm
            /\ (0 < TestVariant.visitors control
                /\ 0 <= TestVariant.conversions control
                /\ TestVariant.conversions control <= TestVariant.visitors control)
            /\ (0 < TestVariant.visitors variant
                /\ 0 <= TestVariant.conversions variant
                /\ TestVariant.conversions variant <= TestVariant.visitors variant))
    /\ (TestVariant.visitors control = 0 ->
        exists e : ValidationError.t,
          In e (ValidationResult.errors result)
          /\ ValidationError.field e = "controlVisitors").
Proof.
  intros Hc Hv. eexists.
  split; [apply (validateInputs_found bm vs control variant Hc Hv) |].
  cbv zeta; simpl ValidationResult.isValid; simpl ValidationResult.errors.
  split; [apply length_zero_iff |]. split.
  - rewrite errors_nil_iff. unfold validMetrics, validData. tauto.
  - intros H0.
    exists (ValidationError.mk "controlVisitors"
              (TestVariant.name control ++ " visitors must be greater than 0")%string).
    split; [| reflexivity].
    apply in_or_app; right. apply in_or_app; left.
    unfold validateVariant. rewrite H0. simpl. rewrite Rleb_true by lra.
    simpl. left; reflexivity.
Qed.

Lemma validateInputs_empty_iff_witness :
  lookup "control" sampleVariants = Some sampleControl
  /\ lookup "variant" sampleVariants = Some sampleVariant
  /\ exists result : ValidationResult.t,
       validateInputs sampleMetrics sampleVariants = Return result
       /\ ValidationResult.isValid result = true
       /\ ValidationResult.errors result = [].
Proof.
  split; [reflexivity |]. split; [reflexivity |].
  destruct (validateInputs_empty_iff sampleMetrics sampleVariants
              sampleControl sampleVariant eq_refl eq_refl)
    as [result [E [Hi [H _]]]].
  assert (Hnil : ValidationResult.errors result = []) by (apply H; simpl; lra).
  exists result. split; [exact E |]. split; [apply Hi; exact Hnil | exact Hnil].
Defined.

Lemma hasInvalidData_false_iff (v : TestVariant.t) :
  hasInvalidData v = false <-> validData v.
Proof.
  unfold hasInvalidData, validData, Num.gt; simpl.
  rewrite !orb_false_iff, Rleb_false_iff, !Rltb_false_iff. tauto.
Qed.

Lemma hasInvalidData_true_iff (v : TestVariant.t) :
  hasInvalidData v = true
  <-> TestVariant.visitors v <= 0
      \/ TestVariant.conversions v < 0
      \/ TestVariant.conversions v > TestVariant.visitors v.
Proof.
  unfold hasInvalidData, Num.gt; simpl.
  rewrite !orb_true_iff, Rleb_true_iff, !Rltb_true_iff. unfold Rgt. tauto.
Qed.

(** What passing validation gives: both mandatory entries exist and every
    checked constraint holds. *)
Lemma validated_inv (bm : BusinessMetrics.t) (vs : Variants) :
  validated bm vs ->
  exists control variant : TestVariant.t,
    lookup "control" vs = Some control
    /\ lookup "variant" vs = Some variant
    /\ validMetrics bm /\ validData control /\ validData variant.
Proof.
  intros [result [E Hvalid]].
  destruct (lookup "control" vs) as [c |] eqn:Hc;
    [| unfold validateInputs, getVariant in E; rewrite Hc in E; discriminate].
  destruct (lookup "variant" vs) as [v |] eqn:Hv;
    [| unfold validateInputs, getVariant in E; rewrite Hc, Hv in E; discriminate].
  rewrite (validateInputs_found bm vs c v Hc Hv) in E. injection E as <-.
  cbv zeta in Hvalid; simpl in Hvalid.
  apply length_zero_iff, errors_nil_iff in Hvalid.
  exists c, v. tauto.
Qed.

Lemma validated_intro (bm : BusinessMetrics.t) (vs : Variants)
  (control variant : TestVariant.t) :
  lookup "control" vs = Some control ->
  lookup "variant" vs = Some variant ->
  validMetrics bm -> validData control -> validData variant ->
  validated bm vs.
Proof.
  intros Hc Hv Hm Hdc Hdv.
  eexists; split; [apply (validateInputs_found bm vs control variant Hc Hv) |].
  cbv zeta; simpl. apply length_zero_iff, errors_nil_iff. tauto.
Qed.

(** ** Structure of the results *)

Lemma additionalVariants_cons (bm : BusinessMetrics.t) (key : string)
  (variant : TestVariant.t) (vs : Variants) :
  additionalVariants bm ((key, variant) :: vs)
  = if isAdditionalKey key && negb (hasInvalidData variant)
    then variantResult bm key variant :: additionalVariants bm vs
    else additionalVariants bm vs.
Proof.
  unfold additionalVariants. simpl filter.
  destruct (isAdditionalKey key); simpl; [| reflexivity].
  destruct (hasInvalidData variant); reflexivity.
Qed.

(** The additional results are exactly the results of the entries with an
    additional key and valid data. *)
Lemma additionalVariants_In (bm : BusinessMetrics.t) (vs : Variants)
  (r : VariantResult.t) :
  In r (additionalVariants bm vs)
  <-> exists (key : string) (variant : TestVariant.t),
        In (key, variant) vs
        /\ isAdditionalKey key = true
        /\ hasInvalidData variant = false
        /\ r = variantResult bm key variant.
Proof.
  induction vs as [| [k v] vs IH].
  - simpl. split; [contradiction | intros (? & ? & [] & _)].
  - rewrite additionalVariants_cons.
    destruct (isAdditionalKey k) eqn:Hk, (hasInvalidData v) eqn:Hd; simpl;
      rewrite ?IH; split.
    all: try (intros (key & variant & Hin & H); exists key, variant;
              split; [right; exact Hin | exact H]).
    all: try (intros (key & variant & [Heq | Hin] & Ha & Hi & Hr);
              [injection Heq as <- <-; congruence
              | exists key, variant; auto]).
    + intros [<- | (key & variant & Hin & H)].
      * exists k, v. auto.
      * exists key, variant. split; [right; exact Hin | exact H].
    + intros (key & variant & [Heq | Hin] & Ha & Hi & Hr).
      * injection Heq as <- <-. left; symmetry; exact Hr.
      * right. exists key, variant. auto.
Qed.

Lemma isAdditionalKey_true (key : string) :
  isAdditionalKey key = true -> key <> "control" /\ key <> "variant".
Proof.
  unfold isAdditionalKey; simpl. rewrite negb_true_iff, !orb_false_iff.
  intros (Hc & Hv & _). apply String.eqb_neq in Hc, Hv. auto.
Qed.

Lemma additionalVariants_not_control (bm : BusinessMetrics.t) (vs : Variants)
  (r : VariantResult.t) :
  In r (additionalVariants bm vs) -> isControl r = false.
Proof.
  intros H. apply additionalVariants_In in H.
  destruct H as (key & variant & _ & Hk & _ & ->).
  unfold isControl; simpl. apply String.eqb_neq, (isAdditionalKey_true key Hk).
Qed.

Lemma filter_all {A : Type} (f : A -> bool) (l : list A) :
  (forall x, In x l -> f x = true) -> filter f l = l.
Proof.
  induction l as [| a l IH]; simpl; intros H; [reflexivity |].
  rewrite (H a) by (left; reflexivity). f_equal. apply IH.
  intros x Hx; apply H; right; exact Hx.
Qed.

Lemma nonControl_additionalVariants (bm : BusinessMetrics.t) (vs : Variants) :
  nonControl (additionalVariants bm vs) = additionalVariants bm vs.
Proof.
  apply filter_all. intros x Hx.
  rewrite (additionalVariants_not_control bm vs x Hx). reflexivity.
Qed.

(** The [try] block on inputs holding both mandatory entries: the control
    result is the first one, the candidates for the best variant are
    "variant" followed by the additional results, and nothing throws. *)
Lemma computeResults_found (bm : BusinessMetrics.t) (vs : Variants)
  (control variant : TestVariant.t) :
  lookup "control" vs = Some control ->
  lookup "variant" vs = Some variant ->
  exists r : TestResults.t,
    computeResults bm vs = Return r
    /\ let controlResult := variantResult bm "control" control in
       let variantRes := variantResult bm "variant" variant in
       let rest := additionalVariants bm vs in
       let bestVariant := fold_left better rest variantRes in
       TestResults.variants r = controlResult :: variantRes :: rest
       /\ find isControl (TestResults.variants r) = Some controlResult
       /\ nonControl (TestResults.variants r) = variantRes :: rest
       /\ reduce better (nonControl (TestResults.variants r)) = Return bestVariant
       /\ TestResults.winner r
          = (if (VariantResult.rate bestVariant >? VariantResult.rate controlResult)%num
             then VariantResult.name bestVariant
             else VariantResult.name controlResult)
       /\ TestResults.improvement r = improvementOf bestVariant controlResult
       /\ TestResults.monthlyRevenue r = VariantResult.revenue bestVariant
       /\ TestResults.riskLevel r
          = (if forallb (fun s : bool => s)
                  (map (isSignificant controlResult) (TestResults.variants r))
             then (if (Num.abs (TestResults.improvement r) >? 20)%num
                   then low else medium)
             else high)
       /\ TestResults.revenueImpact r
          = (let monthlyImpact :=
               (VariantResult.revenue bestVariant
                - VariantResult.revenue controlResult)%num in
             RevenueImpact.mk monthlyImpact (monthlyImpact * 12)%num).
Proof.
  intros Hc Hv. unfold computeResults, getVariant. rewrite Hc, Hv.
  cbv beta iota zeta delta [bind].
  change (find isControl
            ([variantResult bm "control" control;
              variantResult bm "variant" variant] ++ additionalVariants bm vs))
    with (Some (variantResult bm "control" control)).
  change (filter (fun v => negb (isControl v))
            ([variantResult bm "control" control;
              variantResult bm "variant" variant] ++ additionalVariants bm vs))
    with (variantResult bm "variant" variant
          :: nonControl (additionalVariants bm vs)).
  rewrite nonControl_additionalVariants.
  cbv beta iota delta [reduce].
  eexists; split; [reflexivity |].
  cbv zeta. simpl TestResults.variants. simpl TestResults.improvement.
  repeat split; unfold nonControl; simpl filter;
    change (filter (fun v => negb (isControl v)) (additionalVariants bm vs))
      with (nonControl (additionalVariants bm vs));
    rewrite nonControl_additionalVariants; reflexivity.
Qed.

(** On validated inputs [calculateResults] returns the results of the
    [try] block. *)
Lemma calculateResults_validated (bm : BusinessMetrics.t) (vs : Variants)
  (r : TestResults.t) :
  validated bm vs -> computeResults bm vs = Return r ->
  calculateResults bm vs = Return (Some r).
Proof.
  intros [result [E Hvalid]] Hr. unfold calculateResults.
  rewrite E. simpl. rewrite Hvalid, Hr. reflexivity.
Qed.

(** ** Rates of the results *)

Lemma variantResult_rate (bm : BusinessMetrics.t) (key : string)
  (v : TestVariant.t) :
  validData v ->
  VariantResult.rate (variantResult bm key v)
  = Fin (TestVariant.conversions v / TestVariant.visitors v * 100)
  /\ within 0 100 (VariantResult.rate (variantResult bm key v)).
Proof.
  intros (Hv & H0 & H1). simpl VariantResult.rate.
  rewrite calculateConversionRate_pos by exact Hv.
  split; [reflexivity |]. eexists; split; [reflexivity |].
  pose proof (ratio_bounds _ _ Hv (conj H0 H1)). lra.
Qed.

Lemma within_finite (lo hi : R) (x : number) : within lo hi x -> is_finite x.
Proof. intros [r [-> _]]; exact I. Qed.

Lemma additionalVariants_rate (bm : BusinessMetrics.t) (vs : Variants)
  (r : VariantResult.t) :
  In r (additionalVariants bm vs) -> within 0 100 (VariantResult.rate r).
Proof.
  intros H. apply additionalVariants_In in H.
  destruct H as (key & variant & _ & _ & Hd & ->).
  apply variantResult_rate, hasInvalidData_false_iff, Hd.
Qed.

(** ** The reduction selecting the best variant *)

Section BestVariant.
Variable first : VariantResult.t.

Lemma fold_better_snoc (l : list VariantResult.t) (y : VariantResult.t) :
  fold_left better (l ++ [y]) first = better (fold_left better l first) y.
Proof. rewrite fold_left_app. reflexivity. Qed.

(** The result of the reduction is the first entry of maximal rate:
    every entry before it has a strictly smaller rate and every entry
    after it has a smaller or equal rate. *)
Lemma fold_better_first_max (l : list VariantResult.t) :
  (forall v, In v (first :: l) -> is_finite (VariantResult.rate v)) ->
  exists before after : list VariantResult.t,
    first :: l = before ++ fold_left better l first :: after
    /\ (forall v, In v before ->
          (VariantResult.rate v
           <? VariantResult.rate (fold_left better l first))%num = true)
    /\ (forall v, In v after ->
          (VariantResult.rate v
           <=? VariantResult.rate (fold_left better l first))%num = true).
Proof.
  induction l as [| y l IH] using rev_ind; intros Hfin.
  - exists [], []. simpl. repeat split; intros v [].
  - destruct IH as (before & after & Hsplit & Hb & Ha).
    { intros v Hv. apply Hfin. simpl in *.
      destruct Hv as [-> | Hv]; [left; reflexivity |].
      right; apply in_or_app; left; exact Hv. }
    rewrite fold_better_snoc. set (best := fold_left better l first) in *.
    assert (Hy : is_finite (VariantResult.rate y)).
    { apply Hfin. right. apply in_or_app; right; left; reflexivity. }
    assert (Hbest : is_finite (VariantResult.rate best)).
    { apply Hfin. rewrite app_comm_cons, Hsplit.
      apply in_or_app; left. apply in_or_app; right; left; reflexivity. }
    unfold better.
    destruct (VariantResult.rate y >? VariantResult.rate best)%num eqn:Hgt.
    + exists (first :: l), []. split; [rewrite app_comm_cons; reflexivity |].
      split; [| intros v []].
      intros v Hv. rewrite Hsplit in Hv.
      apply in_app_or in Hv. destruct Hv as [Hv | [<- | Hv]].
      * exact (lt_trans _ _ _ (Hb v Hv) Hgt).
      * exact Hgt.
      * exact (le_lt_trans _ _ _ (Ha v Hv) Hgt).
    + exists before, (after ++ [y]). split.
      { rewrite app_comm_cons, Hsplit, <- app_assoc. reflexivity. }
      split; [exact Hb |].
      intros v Hv. apply in_app_or in Hv. destruct Hv as [Hv | [<- | []]].
      * exact (Ha v Hv).
      * exact (not_gt_le _ _ Hy Hbest Hgt).
Qed.

Lemma fold_better_In (l : list VariantResult.t) :
  In (fold_left better l first) (first :: l).
Proof.
  induction l as [| y l IH] using rev_ind; [left; reflexivity |].
  rewrite fold_better_snoc. unfold better.
  destruct (_ >? _)%num.
  - right; apply in_or_app; right; left; reflexivity.
  - simpl in *. destruct IH as [IH | IH]; [left; exact IH |].
    right; apply in_or_app; left; exact IH.
Qed.
End BestVariant.

Lemma candidates_finite (bm : BusinessMetrics.t) (vs : Variants)
  (variant : TestVariant.t) (x : VariantResult.t) :
  validData variant ->
  In x (variantResult bm "variant" variant :: additionalVariants bm vs) ->
  is_finite (VariantResult.rate x).
Proof.
  intros Hd [<- | Hx]; apply (within_finite 0 100).
  - apply variantResult_rate, Hd.
  - apply (additionalVariants_rate bm vs), Hx.
Qed.

Lemma nonControl_In (l : list VariantResult.t) (x : VariantResult.t) :
  In x (nonControl l) <-> In x l /\ isControl x = false.
Proof.
  unfold nonControl. rewrite filter_In, negb_true_iff. reflexivity.
Qed.

(** ** Validated sample inputs *)

Lemma sample_validated : validated sampleMetrics sampleVariants.
Proof.
  apply (validated_intro sampleMetrics sampleVariants sampleControl sampleVariant);
    try reflexivity; unfold validMetrics, validData; simpl; lra.
Defined.

Lemma four_validated : validated sampleMetrics fourVariants.
Proof.
  apply (validated_intro sampleMetrics fourVariants sampleControl sampleVariant);
    try reflexivity; unfold validMetrics, validData; simpl; lra.
Defined.

(** ** Significance and risk level *)

Lemma every_map_false {A : Type} (f : A -> bool) (l : list A) :
  forallb (fun s : bool => s) (map f l) = false
  <-> exists x, In x l /\ f x = false.
Proof.
  induction l as [| a l IH]; simpl.
  - split; [discriminate | intros (x & [] & _)].
  - rewrite andb_false_iff, IH. split.
    + intros [Ha | (x & Hx & Hf)]; [exists a | exists x]; auto.
    + intros (x & [<- | Hx] & Hf); [left; exact Hf | right; exists x; auto].
Qed.

Lemma every_map_true {A : Type} (f : A -> bool) (l : list A) :
  forallb (fun s : bool => s) (map f l) = true
  <-> forall x, In x l -> f x = true.
Proof.
  rewrite forallb_forall. split.
  - intros H x Hx. apply H, in_map, Hx.
  - intros H s Hs. apply in_map_iff in Hs. destruct Hs as (x & <- & Hx); auto.
Qed.

Lemma isSignificant_false_iff (controlResult v : VariantResult.t) :
  isSignificant controlResult v = false
  <-> isControl v = false /\ (zScore v controlResult >? 1.96)%num = false.
Proof.
  unfold isSignificant. destruct (isControl v); split.
  - discriminate.
  - intros [H _]; discriminate.
  - auto.
  - tauto.
Qed.

(** ** Additional variants *)

Lemma NoDup_fst_unique {A B : Type} (l : list (A * B)) (k : A) (x y : B) :
  NoDup (map fst l) -> In (k, x) l -> In (k, y) l -> x = y.
Proof.
  induction l as [| [k' z] l IH]; simpl; [contradiction |].
  intros Hnd Hx Hy. inversion Hnd as [| ? ? Hnotin Hnd']; subst.
  destruct Hx as [Hx | Hx], Hy as [Hy | Hy].
  - congruence.
  - injection Hx as -> ->. exfalso; apply Hnotin.
    change k with (fst (k, y)). apply in_map, Hy.
  - injection Hy as -> ->. exfalso; apply Hnotin.
    change k with (fst (k, x)). apply in_map, Hx.
  - apply IH; assumption.
Qed.

(** C8: when the business metrics and the two mandatory entries satisfy
    their constraints, validation reports no error whatever the additional
    entries hold, the results are computed, an additional entry with
    [visitors <= 0], [conversions < 0] or [conversions > visitors] has no
    result in [variants], and the result of every additional entry with
    valid data is in [variants]. The keys of the object are distinct. *)
Theorem additional_variants_filtered (bm : BusinessMetrics.t) (vs : Variants)
  (control variant : TestVariant.t) :
  NoDup (map fst vs) ->
  lookup "control" vs = Some control ->
  lookup "variant" vs = Some variant ->
  validMetrics bm -> validData control -> validData variant ->
  exists (result : ValidationResult.t) (r : TestResults.t),
    validateInputs bm vs = Return result
    /\ ValidationResult.errors result = []
    /\ calculateResults bm vs = Return (Some r)
    /\ forall (key : string) (extra : TestVariant.t),
         In (key, extra) vs -> isAdditionalKey key = true ->
         ((TestVariant.visitors extra <= 0
           \/ TestVariant.conversions extra < 0
           \/ TestVariant.conversions extra > TestVariant.visitors extra) ->
          forall x, In x (TestResults.variants r) -> VariantResult.key x <> key)
         /\ (0 < TestVariant.visitors extra
             /\ 0 <= TestVariant.conversions extra
             /\ TestVariant.conversions extra <= TestVariant.visitors extra ->
             In (variantResult bm key extra) (TestResults.variants r)).
Proof.
  intros Hnd Hc Hv Hm Hdc Hdv.
  destruct (computeResults_found bm vs control variant Hc Hv)
    as (r & Hr & Hvars & _).
  cbv zeta in Hvars.
  eexists. exists r.
  split; [apply (validateInputs_found bm vs control variant Hc Hv) |].
  split; [cbv zeta; simpl; apply errors_nil_iff; tauto |].
  split.
  { apply calculateResults_validated; [| exact Hr].
    apply (validated_intro bm vs control variant); assumption. }
  intros key extra Hin Hkey.
  destruct (isAdditionalKey_true key Hkey) as [Hnc Hnv].
  rewrite Hvars. split.
  - intros Hbad x [<- | [<- | Hx]].
    + simpl. congruence.
    + simpl. congruence.
    + apply additionalVariants_In in Hx.
      destruct Hx as (k' & v' & Hin' & _ & Hok & ->). simpl.
      intros ->.
      rewrite (NoDup_fst_unique vs key v' extra Hnd Hin' Hin) in Hok.
      apply hasInvalidData_true_iff in Hbad. congruence.
  - intros Hgood. right; right. apply additionalVariants_In.
    exists key, extra. repeat split; try assumption.
    apply hasInvalidData_false_iff, Hgood.
Qed.

Lemma fourVariants_NoDup : NoDup (map fst fourVariants).
Proof.
  simpl. repeat constructor; simpl; intuition discriminate.
Defined.

Lemma additional_variants_filtered_witness :
  NoDup (map fst fourVariants)
  /\ lookup "control" fourVariants = Some sampleControl
  /\ lookup "variant" fourVariants = Some sampleVariant
  /\ validMetrics sampleMetrics /\ validData sampleControl
  /\ validData sampleVariant
  /\ exists r : TestResults.t,
       calculateResults sampleMetrics fourVariants = Return (Some r)
       /\ (forall x, In x (TestResults.variants r) ->
             VariantResult.key x <> "control1")
       /\ In (variantResult sampleMetrics "variant1"
                (TestVariant.mk "Variant 1" 2000 300))
             (TestResults.variants r).
Proof.
  assert (Hm : validMetrics sampleMetrics)
    by (unfold validMetrics; simpl; lra).
  assert (Hc : validData sampleControl) by (unfold validData; simpl; lra).
  assert (Hv : validData sampleVariant) by (unfold validData; simpl; lra).
  split; [exact fourVariants_NoDup |].
  split; [reflexivity |]. split; [reflexivity |].
  split; [exact Hm |]. split; [exact Hc |]. split; [exact Hv |].
  destruct (additional_variants_filtered sampleMetrics fourVariants
              sampleControl sampleVariant fourVariants_NoDup
              eq_refl eq_refl Hm Hc Hv)
    as (result & r & _ & _ & Hr & Hextra).
  exists r. split; [exact Hr |]. split.
  - apply (Hextra "control1" (TestVariant.mk "Control 1" 0 0)).
    + simpl; auto.
    + reflexivity.
    + left; simpl; lra.
  - apply (Hextra "variant1" (TestVariant.mk "Variant 1" 2000 300)).
    + simpl; auto.
    + reflexivity.
    + simpl; lra.
Defined.

(** ** Improvement *)

(** The improvement of finite rates: the relative difference when the
    control rate is not 0, and otherwise [Infinity], [-Infinity] or [NaN]
    from the division by zero. *)
Lemma improvementOf_finite (bestVariant controlResult : VariantResult.t)
  (b c : R) :
  VariantResult.rate bestVariant = Fin b ->
  VariantResult.rate controlResult = Fin c ->
  (c <> 0 -> improvementOf bestVariant controlResult = Fin (100 * (b - c) / c))
  /\ (c = 0 -> 0 < b -> improvementOf bestVariant controlResult = PosInf)
  /\ (c = 0 -> b = 0 -> improvementOf bestVariant controlResult = NaN)
  /\ (c = 0 -> b < 0 -> improvementOf bestVariant controlResult = NegInf).
Proof.
  intros Hb Hc. unfold improvementOf. rewrite Hb, Hc.
  repeat split; intros H; try intros H'.
  - num_eval. f_equal. unfold Rdiv. ring.
  - num_eval. reflexivity.
  - num_eval. reflexivity.
  - num_eval. reflexivity.
Qed.

(** In exact arithmetic and for inputs without a negative zero: on
    validated inputs the rates of the control and of the best variant are
    finite and non-negative; the improvement is the relative difference of
    the rates when the control rate is not 0, and [Infinity] or [NaN] when
    it is 0. *)
Lemma improvement_validated (bm : BusinessMetrics.t) (vs : Variants) :
  validated bm vs ->
  exists (r : TestResults.t) (controlResult bestVariant : VariantResult.t)
         (b c : R),
    calculateResults bm vs = Return (Some r)
    /\ find isControl (TestResults.variants r) = Some controlResult
    /\ reduce better (nonControl (TestResults.variants r)) = Return bestVariant
    /\ VariantResult.rate bestVariant = Fin b
    /\ VariantResult.rate controlResult = Fin c
    /\ 0 <= b /\ 0 <= c
    /\ (c <> 0 -> TestResults.improvement r = Fin (100 * (b - c) / c))
    /\ (c = 0 -> 0 < b -> TestResults.improvement r = PosInf)
    /\ (c = 0 -> b = 0 -> TestResults.improvement r = NaN).
Proof.
  intros Hval.
  destruct (validated_inv bm vs Hval) as (cv & v & Hc & Hv & Hm & Hdc & Hdv).
  destruct (computeResults_found bm vs cv v Hc Hv)
    as (r & Hr & Hvars & Hfind & Hnc & Hred & _ & Himp & _).
  cbv zeta in *.
  set (cR := variantResult bm "control" cv) in *.
  set (best := fold_left better (additionalVariants bm vs)
                 (variantResult bm "variant" v)) in *.
  destruct (proj2 (variantResult_rate bm "control" cv Hdc)) as (c & Hrc & Hcb).
  assert (Hbw : within 0 100 (VariantResult.rate best)).
  { destruct (fold_better_In (variantResult bm "variant" v)
                (additionalVariants bm vs)) as [Hb | Hb]; fold best in Hb.
    - rewrite <- Hb. apply variantResult_rate, Hdv.
    - apply (additionalVariants_rate bm vs), Hb. }
  destruct Hbw as (b & Hrb & Hbb).
  destruct (improvementOf_finite best cR b c Hrb Hrc) as (H1 & H2 & H3 & _).
  exists r, cR, best, b, c. rewrite Himp.
  split; [apply calculateResults_validated; assumption |].
  repeat split; try assumption; lra.
Qed.

Lemma zeroControl_validated : validated sampleMetrics zeroControlVariants.
Proof.
  apply (validated_intro sampleMetrics zeroControlVariants
           (TestVariant.mk "Control" 1000 0) sampleVariant);
    try reflexivity; unfold validMetrics, validData; simpl; lra.
Defined.

Lemma zeroRate_validated : validated sampleMetrics zeroRateVariants.
Proof.
  apply (validated_intro sampleMetrics zeroRateVariants
           (TestVariant.mk "Control" 1000 0) (TestVariant.mk "Variant" 1000 0));
    try reflexivity; unfold validMetrics, validData; simpl; lra.
Defined.

(** C1: evaluation at an input the claim fails on. With a control entry
    of 1000 visitors and no conversion and a variant of 1000 visitors and
    150 conversions, the inputs pass validation, the control rate is 0 and
    [calculateResults] returns results whose improvement is [Infinity]:
    the division by the control rate is not guarded. *)
Theorem improvement_infinite_when_control_rate_zero :
  validated sampleMetrics zeroControlVariants
  /\ exists (r : TestResults.t) (controlResult : VariantResult.t),
       calculateResults sampleMetrics zeroControlVariants = Return (Some r)
       /\ find isControl (TestResults.variants r) = Some controlResult
       /\ VariantResult.rate controlResult = Fin (0 / 1000 * 100)
       /\ TestResults.improvement r = PosInf.
Proof.
  split; [exact zeroControl_validated |].
  destruct (computeResults_found sampleMetrics zeroControlVariants
              (TestVariant.mk "Control" 1000 0) sampleVariant eq_refl eq_refl)
    as (r & Hr & _ & Hfind & _ & _ & _ & Himp & _).
  cbv zeta in *.
  exists r, (variantResult sampleMetrics "control" (TestVariant.mk "Control" 1000 0)).
  split; [apply calculateResults_validated;
          [exact zeroControl_validated | exact Hr] |].
  split; [exact Hfind |].
  split; [simpl; apply calculateConversionRate_pos; lra |].
  rewrite Himp.
  change (additionalVariants sampleMetrics zeroControlVariants) with (@nil VariantResult.t).
  simpl fold_left.
  apply (improvementOf_finite _ _ (150 / 1000 * 100) (0 / 1000 * 100)).
  - simpl; apply calculateConversionRate_pos; lra.
  - simpl; apply calculateConversionRate_pos; lra.
  - lra.
  - lra.
Qed.

(** ** Identical rates *)

(** A zero numerator never gives a z-score above 1.96, whatever the
    denominator: the quotient is 0 or, for [0 / 0], [NaN]. *)
Lemma zero_div_not_gt (z : R) (d : number) :
  z = 0 -> (Fin z / d >? 1.96)%num = false.
Proof.
  intros ->. destruct d as [y | | |]; num_eval; try reflexivity.
  destruct (Reqb y 0); [reflexivity |]. rdecide. reflexivity.
Qed.

Lemma zScore_same_rate (v controlResult : VariantResult.t) :
  is_finite (VariantResult.rate controlResult) ->
  VariantResult.rate v = VariantResult.rate controlResult ->
  (zScore v controlResult >? 1.96)%num = false.
Proof.
  intros Hfin Heq. unfold zScore. rewrite Heq.
  destruct (VariantResult.rate controlResult) as [q | | |]; try contradiction.
  simpl Num.abs. simpl Num.sub. apply zero_div_not_gt.
  replace (q - q) with 0 by lra. apply Rabs_R0.
Qed.

(** On validated inputs whose results all have the rate of the control,
    no non-control result is significant and the risk level is high; the
    improvement is 0 when that common rate is not 0. *)
Lemma identical_rates_not_significant (bm : BusinessMetrics.t) (vs : Variants) :
  validated bm vs ->
  exists (r : TestResults.t) (controlResult : VariantResult.t),
    calculateResults bm vs = Return (Some r)
    /\ find isControl (TestResults.variants r) = Some controlResult
    /\ ((forall v, In v (TestResults.variants r) ->
           VariantResult.rate v = VariantResult.rate controlResult) ->
        (forall v, In v (TestResults.variants r) -> isControl v = false ->
           (zScore v controlResult >? 1.96)%num = false)
        /\ TestResults.riskLevel r = high
        /\ (VariantResult.rate controlResult <> Fin 0 ->
            TestResults.improvement r = Fin 0)).
Proof.
  intros Hval.
  destruct (validated_inv bm vs Hval) as (cv & v & Hc & Hv & Hm & Hdc & Hdv).
  destruct (computeResults_found bm vs cv v Hc Hv)
    as (r & Hr & Hvars & Hfind & Hnc & Hred & _ & Himp & _ & Hrisk & _).
  cbv zeta in *.
  set (cR := variantResult bm "control" cv) in *.
  set (vR := variantResult bm "variant" v) in *.
  set (best := fold_left better (additionalVariants bm vs) vR) in *.
  destruct (proj2 (variantResult_rate bm "control" cv Hdc)) as (c & Hrc & Hcb).
  fold cR in Hrc.
  assert (HcR : is_finite (VariantResult.rate cR)) by (rewrite Hrc; exact I).
  exists r, cR.
  split; [apply calculateResults_validated; assumption |].
  split; [exact Hfind |].
  intros Hsame.
  assert (Hflags : forall x, In x (TestResults.variants r) -> isControl x = false ->
                     (zScore x cR >? 1.96)%num = false).
  { intros x Hx _. apply zScore_same_rate; [exact HcR | apply Hsame, Hx]. }
  split; [exact Hflags |]. split.
  - rewrite Hrisk.
    assert (Hall : forallb (fun s : bool => s)
                     (map (isSignificant cR) (TestResults.variants r)) = false).
    { apply every_map_false. exists vR.
      assert (HvR : In vR (TestResults.variants r))
        by (rewrite Hvars; right; left; reflexivity).
      split; [exact HvR |].
      apply isSignificant_false_iff. split; [reflexivity |].
      apply Hflags; [exact HvR | reflexivity]. }
    rewrite Hall. reflexivity.
  - intros Hnz.
    assert (Hbest : In best (TestResults.variants r)).
    { assert (H : In best (nonControl (TestResults.variants r)))
        by (rewrite Hnc; apply fold_better_In).
      apply nonControl_In in H. tauto. }
    assert (Hrb : VariantResult.rate best = Fin c)
      by (rewrite (Hsame best Hbest); exact Hrc).
    assert (Hc0 : c <> 0) by (intros ->; apply Hnz; exact Hrc).
    rewrite Himp.
    rewrite (proj1 (improvementOf_finite best cR c c Hrb Hrc) Hc0).
    f_equal. unfold Rdiv. replace (c - c) with 0 by lra.
    rewrite Rmult_0_r, Rmult_0_l. reflexivity.
Qed.

(** C4: evaluation at an input the claim fails on. With 1000 visitors and
    no conversion in either entry the inputs pass validation and both rates
    are 0, yet the improvement is [NaN], not 0: the quotient [0 / 0] of the
    unguarded division by the control rate. *)
Theorem identical_zero_rates_improvement_nan :
  validated sampleMetrics zeroRateVariants
  /\ exists r : TestResults.t,
       calculateResults sampleMetrics zeroRateVariants = Return (Some r)
       /\ (forall v, In v (TestResults.variants r) -> VariantResult.rate v = Fin 0)
       /\ TestResults.improvement r = NaN
       /\ TestResults.improvement r <> Fin 0.
Proof.
  split; [exact zeroRate_validated |].
  destruct (computeResults_found sampleMetrics zeroRateVariants
              (TestVariant.mk "Control" 1000 0) (TestVariant.mk "Variant" 1000 0)
              eq_refl eq_refl)
    as (r & Hr & Hvars & _ & _ & _ & _ & Himp & _).
  cbv zeta in *.
  assert (Hrate : forall name key,
             VariantResult.rate
               (variantResult sampleMetrics key (TestVariant.mk name 1000 0))
             = Fin 0).
  { intros name key. simpl. rewrite calculateConversionRate_pos by lra.
    f_equal. lra. }
  assert (E : TestResults.improvement r = NaN).
  { rewrite Himp.
    change (additionalVariants sampleMetrics zeroRateVariants)
      with (@nil VariantResult.t).
    simpl fold_left.
    apply (improvementOf_finite _ _ 0 0); try apply Hrate; reflexivity. }
  exists r.
  split; [apply calculateResults_validated; [exact zeroRate_validated | exact Hr] |].
  split.
  - intros x Hx. rewrite Hvars in Hx.
    change (additionalVariants sampleMetrics zeroRateVariants)
      with (@nil VariantResult.t) in Hx.
    destruct Hx as [<- | [<- | []]]; apply Hrate.
  - split; [exact E |]. rewrite E. discriminate.
Qed.

(** ** Scenarios *)

(** Control 100/1000 and variant 150/1000 with pipeline value 1000, close
    rate 20 and 10000 monthly visitors: in exact arithmetic the improvement
    is 50, the winner is "Variant" and the monthly impact is positive. *)
Example scenario_sample :
  exists r : TestResults.t,
    calculateResults sampleMetrics sampleVariants = Return (Some r)
    /\ TestResults.winner r = "Variant"
    /\ TestResults.improvement r = Fin 50
    /\ (RevenueImpact.monthly (TestResults.revenueImpact r) >? 0)%num = true.
Proof.
  destruct (computeResults_found sampleMetrics sampleVariants
              sampleControl sampleVariant eq_refl eq_refl)
    as (r & Hr & _ & _ & _ & _ & Hwin & Himp & _ & _ & Hrev).
  cbv zeta in *.
  change (additionalVariants sampleMetrics sampleVariants)
    with (@nil VariantResult.t) in *.
  simpl fold_left in *.
  assert (Hc : VariantResult.rate (variantResult sampleMetrics "control" sampleControl)
               = Fin (100 / 1000 * 100))
    by (simpl; apply calculateConversionRate_pos; lra).
  assert (Hv : VariantResult.rate (variantResult sampleMetrics "variant" sampleVariant)
               = Fin (150 / 1000 * 100))
    by (simpl; apply calculateConversionRate_pos; lra).
  exists r.
  split; [apply calculateResults_validated; [exact sample_validated | exact Hr] |].
  split; [| split].
  - rewrite Hwin, Hv, Hc. num_eval. reflexivity.
  - rewrite Himp.
    rewrite (proj1 (improvementOf_finite _ _ _ _ Hv Hc)) by lra.
    f_equal. lra.
  - rewrite Hrev. simpl VariantResult.revenue. simpl RevenueImpact.monthly.
    simpl TestVariant.conversions. simpl TestVariant.visitors.
    rewrite !calculateConversionRate_pos by lra.
    simpl BusinessMetrics.monthlyVisitors. simpl BusinessMetrics.pipelineValue.
    simpl BusinessMetrics.closeRate.
    num_eval. reflexivity.
Qed.

(** "variant" and "variant1" share the maximal rate of 15: the reduction
    keeps the default "variant" entry, and the empty "control1" entry has
    no result. *)
Example scenario_tie :
  additionalVariants sampleMetrics fourVariants
  = [variantResult sampleMetrics "variant1" (TestVariant.mk "Variant 1" 2000 300)]
  /\ fold_left better (additionalVariants sampleMetrics fourVariants)
       (variantResult sampleMetrics "variant" sampleVariant)
     = variantResult sampleMetrics "variant" sampleVariant.
Proof.
  assert (E : additionalVariants sampleMetrics fourVariants
              = [variantResult sampleMetrics "variant1"
                   (TestVariant.mk "Variant 1" 2000 300)]).
  { unfold fourVariants, sampleVariants. simpl app.
    rewrite !additionalVariants_cons.
    assert (H0 : hasInvalidData (TestVariant.mk "Control 1" 0 0) = true)
      by (apply hasInvalidData_true_iff; simpl; lra).
    assert (H1 : hasInvalidData (TestVariant.mk "Variant 1" 2000 300) = false)
      by (apply hasInvalidData_false_iff; unfold validData; simpl; lra).
    rewrite H0, H1. reflexivity. }
  split; [exact E |]. rewrite E. simpl fold_left. unfold better.
  simpl VariantResult.rate. rewrite !calculateConversionRate_pos by lra.
  num_eval. reflexivity.
Qed.

(** Improvement 15 with 12000 visitors for 10000 required: "Implement
    Variant" with confidence high. *)
Example scenario_recommendation :
  getRecommendation 15 12000 10000
  = Recommendation.mk "Implement Variant" "#059669" high
      "Strong positive impact on revenue".
Proof. unfold getRecommendation. num_eval. reflexivity. Qed.

(** An improvement of [NaN] with enough visitors falls through both
    comparisons: "No Clear Winner". *)
Example scenario_recommendation_nan :
  Recommendation.text (getRecommendation NaN 12000 10000) = "No Clear Winner".
Proof. unfold getRecommendation. num_eval. reflexivity. Qed.

(** * Further properties *)

(** ** Standard error *)

Lemma calculateStandardError_pos (rate v : R) :
  0 < v -> 0 <= rate / 100 * (1 - rate / 100) / v ->
  calculateStandardError rate v
  = Fin (R_sqrt.sqrt (rate / 100 * (1 - rate / 100) / v) * 100).
Proof.
  intros Hv Hx. unfold calculateStandardError. num_eval. reflexivity.
Qed.

(** From one visitor on and for a rate between 0 and 100, the standard
    error is a finite number between 0 and 50, and it is 0 at the rates 0
    and 100. *)
Theorem calculateStandardError_range (rate v : R) :
  1 <= v -> 0 <= rate <= 100 ->
  exists e : R,
    calculateStandardError rate v = Fin e
    /\ 0 <= e <= 50
    /\ (rate = 0 \/ rate = 100 -> e = 0).
Proof.
  intros H1 Hr.
  assert (Hv : 0 < v) by lra.
  pose proof (proportion_variance_nonneg rate v Hv Hr) as Hx.
  rewrite (calculateStandardError_pos rate v Hv Hx).
  set (x := rate / 100 * (1 - rate / 100) / v) in *.
  pose proof (sqrt_pos x) as Hs.
  pose proof (sqrt_sqrt x Hx) as Hss.
  assert (Hxv : x * v = rate / 100 * (1 - rate / 100)).
  { unfold x. field. lra. }
  exists (R_sqrt.sqrt x * 100).
  split; [reflexivity |].
  assert (Hsq : R_sqrt.sqrt x * 100 * (R_sqrt.sqrt x * 100) * v <= 2500).
  { replace (R_sqrt.sqrt x * 100 * (R_sqrt.sqrt x * 100) * v)
      with (10000 * (R_sqrt.sqrt x * R_sqrt.sqrt x * v)) by ring.
    rewrite Hss, Hxv.
    pose proof (Rle_0_sqr (rate - 50)) as Hq. unfold Rsqr in Hq. lra. }
  split; [split; [lra | nra] |].
  intros Hr0.
  assert (Hx0 : x = 0).
  { assert (H0 : x * v = 0) by (rewrite Hxv; destruct Hr0; subst; lra). nra. }
  rewrite Hx0, sqrt_0. lra.
Qed.

Lemma calculateStandardError_range_witness :
  1 <= 1000 /\ 0 <= 15 <= 100
  /\ exists e : R, calculateStandardError 15 1000 = Fin e /\ 0 <= e <= 50.
Proof.
  split; [lra |]. split; [lra |].
  destruct (calculateStandardError_range 15 1000) as (e & He & Hb & _);
    [lra | lra |].
  exists e. split; assumption.
Defined.



(** ** Confidence interval at the extreme rates *)

(** At the rates 0 and 100 the interval has no width, however few the
    visitors: it is [0, 0] and [100, 100]. *)
Theorem calculateConfidenceInterval_degenerate (v : R) :
  0 < v ->
  calculateConfidenceInterval 0 v = (Fin 0, Fin 0)
  /\ calculateConfidenceInterval 100 v = (Fin 100, Fin 100).
Proof.
  intros Hv.
  assert (H0 : 0 / 100 * (1 - 0 / 100) / v = 0) by (unfold Rdiv; ring).
  assert (H1 : 100 / 100 * (1 - 100 / 100) / v = 0) by (field; lra).
  unfold calculateConfidenceInterval. split.
  - num_eval. rewrite H0. num_eval. rewrite sqrt_0.
    f_equal; f_equal; [rewrite Rmax_left by lra | rewrite Rmin_right by lra]; lra.
  - num_eval. rewrite H1. num_eval. rewrite sqrt_0.
    f_equal; f_equal; [rewrite Rmax_right by lra | rewrite Rmin_left by lra]; lra.
Qed.

Lemma calculateConfidenceInterval_degenerate_witness :
  0 < 3 /\ calculateConfidenceInterval 0 3 = (Fin 0, Fin 0).
Proof.
  split; [lra |]. apply (calculateConfidenceInterval_degenerate 3). lra.
Defined.

(** ** Decision table of the recommendation *)

(** For a finite sample size and a non-negative finite required size, the
    label and the confidence are decided as follows: "Need More Data" below
    half of the required size, and from there on the improvement alone
    decides between the three other labels; the confidence is high from the
    required size on and low below half of it. *)
Theorem getRecommendation_decision (improvement : number) (s q : R) :
  0 <= q ->
  let r := getRecommendation improvement s q in
  (Recommendation.text r = "Need More Data" <-> s < q * 0.5)
  /\ (Recommendation.text r = "Implement Variant"
      <-> q * 0.5 <= s /\ (improvement >? 10)%num = true)
  /\ (Recommendation.text r = "Keep Control"
      <-> q * 0.5 <= s /\ (improvement >? 10)%num = false
          /\ (improvement <? Fin (-10))%num = true)
  /\ (Recommendation.text r = "No Clear Winner"
      <-> q * 0.5 <= s /\ (improvement >? 10)%num = false
          /\ (improvement <? Fin (-10))%num = false)
  /\ (Recommendation.confidence r = high <-> q <= s)
  /\ (Recommendation.confidence r = low <-> s < q * 0.5).
Proof.
  intros Hq. cbv zeta. unfold getRecommendation, Num.ge. simpl Num.mul. simpl Num.le.
  destruct (Rleb q s) eqn:H1; destruct (Rleb (q * 0.5) s) eqn:H2;
    destruct (improvement >? 10)%num eqn:H3;
    destruct (improvement <? Fin (-10))%num eqn:H4;
    rreflect; simpl;
    repeat split; intros; repeat match goal with H : _ /\ _ |- _ => destruct H end;
    try discriminate; try lra; try reflexivity.
Qed.

Lemma getRecommendation_decision_witness :
  0 <= 10000
  /\ (Recommendation.text (getRecommendation 15 4000 10000) = "Need More Data"
      <-> 4000 < 10000 * 0.5).
Proof.
  split; [lra |].
  apply (getRecommendation_decision 15 4000 10000). lra.
Defined.


(** ** Results of validated inputs *)

Lemma lookup_In (key : string) (vs : Variants) (v : TestVariant.t) :
  lookup key vs = Some v -> In (key, v) vs.
Proof.
  induction vs as [| [k x] vs IH]; simpl; [discriminate |].
  destruct (String.eqb k key) eqn:E.
  - apply String.eqb_eq in E. intros H; injection H as ->. left; congruence.
  - intros H. right. apply IH, H.
Qed.

(** Every result is the result of an entry with valid data. *)
Lemma results_form (bm : BusinessMetrics.t) (vs : Variants)
  (control variant : TestVariant.t) (x : VariantResult.t) :
  lookup "control" vs = Some control ->
  lookup "variant" vs = Some variant ->
  validData control -> validData variant ->
  In x (variantResult bm "control" control
        :: variantResult bm "variant" variant :: additionalVariants bm vs) ->
  exists (key : string) (v : TestVariant.t),
    x = variantResult bm key v /\ validData v /\ In (key, v) vs.
Proof.
  intros Hc Hv Hdc Hdv [<- | [<- | Hx]].
  - exists "control", control. auto using lookup_In.
  - exists "variant", variant. auto using lookup_In.
  - apply additionalVariants_In in Hx.
    destruct Hx as (key & v & Hin & _ & Hd & ->).
    exists key, v. split; [reflexivity |].
    split; [apply hasInvalidData_false_iff, Hd | exact Hin].
Qed.

(** ** Results and validation errors *)

Lemma validateInputs_throw_iff (bm : BusinessMetrics.t) (vs : Variants) :
  validateInputs bm vs = Throw
  <-> lookup "control" vs = None \/ lookup "variant" vs = None.
Proof.
  unfold validateInputs, getVariant.
  destruct (lookup "control" vs); destruct (lookup "variant" vs); simpl;
    split; intros H; try discriminate; auto; destruct H; discriminate.
Qed.

(** [calculateResults] throws exactly when [validateInputs] does, which is
    when a mandatory entry is missing. Otherwise it returns results when
    the error list is empty and [null] when it is not: results and errors
    are never displayed together, and one of them always is. *)
Theorem results_iff_no_error (bm : BusinessMetrics.t) (vs : Variants) :
  (validateInputs bm vs = Throw
   <-> lookup "control" vs = None \/ lookup "variant" vs = None)
  /\ (calculateResults bm vs = Throw <-> validateInputs bm vs = Throw)
  /\ forall result : ValidationResult.t,
       validateInputs bm vs = Return result ->
       (ValidationResult.errors result = [] ->
        exists r : TestResults.t, calculateResults bm vs = Return (Some r))
       /\ (ValidationResult.errors result <> [] ->
           calculateResults bm vs = Return None).
Proof.
  split; [apply validateInputs_throw_iff |]. split.
  - unfold calculateResults. destruct (validateInputs bm vs) as [res |]; simpl.
    + split; [| discriminate].
      destruct (negb (ValidationResult.isValid res)); [discriminate |].
      destruct (computeResults bm vs); discriminate.
    + split; reflexivity.
  - intros result E.
    pose proof (isValid_iff bm vs result E) as Hiff. split.
    + intros Hnil.
      assert (Hval : validated bm vs) by (exists result; split; [exact E | tauto]).
      destruct (validated_inv bm vs Hval) as (c & v & Hc & Hv & _).
      destruct (computeResults_found bm vs c v Hc Hv) as (r & Hr & _).
      exists r. apply calculateResults_validated; assumption.
    + intros Hne. unfold calculateResults. rewrite E. simpl.
      destruct (ValidationResult.isValid result); [| reflexivity].
      exfalso; apply Hne, Hiff; reflexivity.
Qed.

Lemma results_iff_no_error_witness :
  exists result : ValidationResult.t,
    validateInputs sampleMetrics initialVariants = Return result
    /\ calculateResults sampleMetrics initialVariants = Return None.
Proof.
  eexists. split; [reflexivity |].
  apply (proj2 (proj2 (results_iff_no_error sampleMetrics initialVariants)) _ eq_refl).
  cbv zeta. simpl ValidationResult.errors.
  unfold validateBusinessMetrics, validateVariant. simpl. num_eval. simpl.
  discriminate.
Defined.

(** ** The variants object *)

Lemma lookup_setEntry_same (key : string) (x : TestVariant.t) (vs : Variants) :
  lookup key (setEntry key x vs) = Some x.
Proof.
  induction vs as [| [k v] vs IH]; simpl.
  - rewrite String.eqb_refl. reflexivity.
  - destruct (String.eqb k key) eqn:E; simpl.
    + rewrite String.eqb_refl. reflexivity.
    + rewrite E. exact IH.
Qed.

Lemma lookup_setEntry_other (key key' : string) (x : TestVariant.t)
  (vs : Variants) :
  key' <> key -> lookup key' (setEntry key x vs) = lookup key' vs.
Proof.
  intros Hne. induction vs as [| [k v] vs IH]; simpl.
  - apply String.eqb_neq in Hne. rewrite String.eqb_sym, Hne. reflexivity.
  - destruct (String.eqb k key) eqn:E; simpl.
    + apply String.eqb_eq in E. subst k.
      assert (H : String.eqb key key' = false)
        by (apply String.eqb_neq; congruence).
      rewrite H. reflexivity.
    + destruct (String.eqb k key'); [reflexivity | exact IH].
Qed.

Lemma lookup_removeEntry_same (key : string) (vs : Variants) :
  lookup key (removeEntry key vs) = None.
Proof.
  induction vs as [| [k v] vs IH]; simpl; [reflexivity |].
  destruct (String.eqb k key) eqn:E; simpl; [exact IH |].
  rewrite E. exact IH.
Qed.

Lemma lookup_removeEntry_other (key key' : string) (vs : Variants) :
  key' <> key -> lookup key' (removeEntry key vs) = lookup key' vs.
Proof.
  intros Hne. induction vs as [| [k v] vs IH]; simpl; [reflexivity |].
  destruct (String.eqb k key) eqn:E; simpl.
  - apply String.eqb_eq in E. subst k.
    assert (H : String.eqb key key' = false)
      by (apply String.eqb_neq; congruence).
    rewrite H. exact IH.
  - destruct (String.eqb k key'); [reflexivity | exact IH].
Qed.

Lemma keys_setEntry_present (key : string) (x : TestVariant.t) (vs : Variants) :
  In key (map fst vs) -> map fst (setEntry key x vs) = map fst vs.
Proof.
  induction vs as [| [k v] vs IH]; simpl; [contradiction |].
  intros Hin. destruct (String.eqb k key) eqn:E; simpl.
  - apply String.eqb_eq in E. congruence.
  - f_equal. apply IH. destruct Hin as [-> | Hin]; [| exact Hin].
    rewrite String.eqb_refl in E. discriminate.
Qed.

Lemma keys_setEntry_absent (key : string) (x : TestVariant.t) (vs : Variants) :
  ~ In key (map fst vs) -> map fst (setEntry key x vs) = map fst vs ++ [key].
Proof.
  induction vs as [| [k v] vs IH]; simpl; [reflexivity |].
  intros Hnotin. destruct (String.eqb k key) eqn:E; simpl.
  - apply String.eqb_eq in E. exfalso; apply Hnotin; left; exact E.
  - f_equal. apply IH. intros H; apply Hnotin; right; exact H.
Qed.

Lemma keys_removeEntry (key : string) (vs : Variants) :
  map fst (removeEntry key vs)
  = filter (fun k => negb (String.eqb k key)) (map fst vs).
Proof.
  induction vs as [| [k v] vs IH]; simpl; [reflexivity |].
  destruct (String.eqb k key); simpl; [exact IH | f_equal; exact IH].
Qed.

Lemma lookup_Some_key (key : string) (vs : Variants) (v : TestVariant.t) :
  lookup key vs = Some v -> In key (map fst vs).
Proof.
  intros H. apply lookup_In in H. change key with (fst (key, v)).
  apply in_map, H.
Qed.

(** Reading back what was written: an entry set is the entry found under
    its key, the other keys keep their entries, a removed key is no longer
    found, setting an existing key keeps the keys and their order, and
    setting a new key adds it after the others. *)
Theorem setEntry_removeEntry_lookup (key : string) (x : TestVariant.t)
  (vs : Variants) :
  lookup key (setEntry key x vs) = Some x
  /\ (forall key', key' <> key ->
        lookup key' (setEntry key x vs) = lookup key' vs)
  /\ lookup key (removeEntry key vs) = None
  /\ (forall key', key' <> key ->
        lookup key' (removeEntry key vs) = lookup key' vs)
  /\ (In key (map fst vs) -> map fst (setEntry key x vs) = map fst vs)
  /\ (~ In key (map fst vs) -> map fst (setEntry key x vs) = map fst vs ++ [key]).
Proof.
  split; [apply lookup_setEntry_same |].
  split; [intros k H; apply lookup_setEntry_other, H |].
  split; [apply lookup_removeEntry_same |].
  split; [intros k H; apply lookup_removeEntry_other, H |].
  split; [apply keys_setEntry_present | apply keys_setEntry_absent].
Qed.

Lemma setEntry_removeEntry_lookup_witness :
  "control1" <> "variant1"
  /\ lookup "control1" (setEntry "variant1" sampleVariant initialVariants)
     = lookup "control1" initialVariants.
Proof.
  assert (H : "control1" <> "variant1") by discriminate.
  split; [exact H |].
  apply (proj1 (proj2 (setEntry_removeEntry_lookup "variant1" sampleVariant
                         initialVariants)) "control1" H).
Defined.

(** ** Reachable form states *)

(** The keys of a form state: "control" and "variant" first, then distinct
    keys among "control1" and "variant1". *)
Lemma reachable_keys (vs : Variants) :
  reachable vs ->
  exists ks : list string,
    map fst vs = "control" :: "variant" :: ks
    /\ NoDup ks
    /\ incl ks ["control1"; "variant1"].
Proof.
  induction 1 as [| vs vs' Hreach (ks & Hkeys & Hnd & Hincl) Hstep].
  - exists []. split; [reflexivity |]. split; [constructor | intros k []].
  - assert (Hlen : (List.length ks <= 2)%nat)
      by (apply (NoDup_incl_length Hnd Hincl)).
    assert (Hlenvs : List.length vs = S (S (List.length ks)))
      by (rewrite <- (length_map fst vs), Hkeys; reflexivity).
    destruct Hstep as [key variant value Hl | key variant value Hl
                      | key variant value Hl | key variant Hl Hadd | Hlt].
    + exists ks. unfold setName.
      rewrite keys_setEntry_present by (apply (lookup_Some_key _ _ _ Hl)). auto.
    + exists ks. unfold setVisitors.
      rewrite keys_setEntry_present by (apply (lookup_Some_key _ _ _ Hl)). auto.
    + exists ks. unfold setConversions.
      rewrite keys_setEntry_present by (apply (lookup_Some_key _ _ _ Hl)). auto.
    + destruct (isAdditionalKey_true key Hadd) as [Hnc Hnv].
      exists (filter (fun k => negb (String.eqb k key)) ks).
      rewrite keys_removeEntry, Hkeys. cbn [filter].
      assert (E1 : String.eqb "control" key = false)
        by (apply String.eqb_neq; congruence).
      assert (E2 : String.eqb "variant" key = false)
        by (apply String.eqb_neq; congruence).
      rewrite E1, E2. cbn [negb]. split; [reflexivity |].
      split; [apply NoDup_filter, Hnd |].
      intros k Hk. apply filter_In in Hk. apply Hincl, Hk.
    + assert (Hidx : Nat.div (List.length vs) 2 = 1%nat).
      { rewrite Hlenvs in *. destruct ks as [| k1 [| k2 [| k3 ks]]];
          simpl in *; try reflexivity; lia. }
      unfold addTestPair. rewrite Hidx. cbv zeta.
      change ("control" ++ showIndex 1)%string with "control1".
      change ("variant" ++ showIndex 1)%string with "variant1".
      set (z1 := TestVariant.mk _ 0 0). set (z2 := TestVariant.mk _ 0 0).
      assert (Hnot : forall k, ~ In k ks -> k <> "control" -> k <> "variant" ->
                       ~ In k (map fst vs)).
      { intros k Hk H1 H2. rewrite Hkeys. simpl. intuition congruence. }
      assert (Hin : forall k, In k ks -> In k (map fst vs))
        by (intros k Hk; rewrite Hkeys; right; right; exact Hk).
      destruct (in_dec string_dec "control1" ks) as [Hc1 | Hc1];
        destruct (in_dec string_dec "variant1" ks) as [Hv1 | Hv1].
      * exists ks.
        rewrite keys_setEntry_present;
          rewrite keys_setEntry_present; auto.
      * exists (ks ++ ["variant1"]).
        rewrite keys_setEntry_absent;
          rewrite keys_setEntry_present; auto.
        -- rewrite Hkeys. split; [reflexivity |]. split.
           ++ apply NoDup_app; [exact Hnd | repeat constructor; intros [] |].
              intros a Ha [<- | []]. exact (Hv1 Ha).
           ++ intros k Hk. apply in_app_or in Hk.
              destruct Hk as [Hk | [<- | []]]; [apply Hincl, Hk | simpl; auto].
        -- apply Hnot; [exact Hv1 | discriminate | discriminate].
      * exists (ks ++ ["control1"]).
        rewrite keys_setEntry_present;
          rewrite keys_setEntry_absent;
          try (apply Hnot; [exact Hc1 | discriminate | discriminate]).
        -- rewrite Hkeys. split; [reflexivity |]. split.
           ++ apply NoDup_app; [exact Hnd | repeat constructor; intros [] |].
              intros a Ha [<- | []]. exact (Hc1 Ha).
           ++ intros k Hk. apply in_app_or in Hk.
              destruct Hk as [Hk | [<- | []]]; [apply Hincl, Hk | simpl; auto].
        -- apply in_or_app. left. apply Hin, Hv1.
      * exists (ks ++ ["control1"; "variant1"]).
        rewrite keys_setEntry_absent;
          rewrite keys_setEntry_absent;
          try (apply Hnot; [exact Hc1 | discriminate | discriminate]).
        -- rewrite Hkeys, <- app_assoc. split; [reflexivity |]. split.
           ++ apply NoDup_app; [exact Hnd | |].
              ** repeat constructor; simpl; intuition discriminate.
              ** intros a Ha [<- | [<- | []]]; auto.
           ++ intros k Hk. apply in_app_or in Hk.
              destruct Hk as [Hk | Hk]; [apply Hincl, Hk | exact Hk].
        -- intros Hk. apply in_app_or in Hk. destruct Hk as [Hk | [Hk | []]].
           ++ revert Hk. apply Hnot; [exact Hv1 | discriminate | discriminate].
           ++ discriminate.
Qed.

Lemma reachable_mandatory (vs : Variants) :
  reachable vs ->
  exists control variant : TestVariant.t,
    lookup "control" vs = Some control /\ lookup "variant" vs = Some variant.
Proof.
  intros Hreach. destruct (reachable_keys vs Hreach) as (ks & Hkeys & _).
  destruct vs as [| [k1 c] [| [k2 v] rest]]; simpl in Hkeys; try discriminate.
  injection Hkeys as -> -> _. exists c, v. split; reflexivity.
Qed.

(** Every form state reached from the initial one by the handlers has
    distinct keys, between two and four entries, the entries "control" and
    "variant" in front and at most "control1" and "variant1" besides;
    neither [validateInputs] nor [calculateResults] throws on it. *)
Theorem reachable_invariant (vs : Variants) :
  reachable vs ->
  NoDup (map fst vs)
  /\ (2 <= List.length vs <= 4)%nat
  /\ (exists ks : list string,
        map fst vs = "control" :: "variant" :: ks
        /\ incl ks ["control1"; "variant1"])
  /\ forall bm : BusinessMetrics.t,
       (exists result, validateInputs bm vs = Return result)
       /\ (exists o, calculateResults bm vs = Return o).
Proof.
  intros Hreach.
  destruct (reachable_keys vs Hreach) as (ks & Hkeys & Hnd & Hincl).
  destruct (reachable_mandatory vs Hreach) as (c & v & Hc & Hv).
  assert (Hlen : (List.length ks <= 2)%nat)
    by (apply (NoDup_incl_length Hnd Hincl)).
  split; [| split; [| split; [| intros bm; split]]].
  - rewrite Hkeys. constructor; [| constructor; [| exact Hnd]].
    + intros [H | H]; [discriminate |].
      apply Hincl in H. simpl in H. intuition discriminate.
    + intros H. apply Hincl in H. simpl in H. intuition discriminate.
  - rewrite <- (length_map fst vs), Hkeys. simpl. lia.
  - exists ks. auto.
  - eexists. apply (validateInputs_found bm vs c v Hc Hv).
  - destruct (validateInputs bm vs) as [res |] eqn:E.
    + unfold calculateResults. rewrite E. simpl.
      destruct (negb (ValidationResult.isValid res)); [eexists; reflexivity |].
      destruct (computeResults_found bm vs c v Hc Hv) as (r & Hr & _).
      rewrite Hr. eexists; reflexivity.
    + rewrite (validateInputs_found bm vs c v Hc Hv) in E. discriminate.
Qed.

Lemma reachable_add : reachable (addTestPair initialVariants).
Proof.
  apply (reachable_step initialVariants); [exact reachable_initial |].
  apply step_add. simpl. lia.
Defined.

Lemma reachable_invariant_witness :
  reachable (addTestPair initialVariants)
  /\ NoDup (map fst (addTestPair initialVariants))
  /\ (2 <= List.length (addTestPair initialVariants) <= 4)%nat.
Proof.
  split; [exact reachable_add |].
  destruct (reachable_invariant (addTestPair initialVariants) reachable_add)
    as (Hnd & Hlen & _).
  split; assumption.
Defined.

(** ** Adding a test pair *)

(** An entry counts for the results when its key is additional and its
    data valid. *)
Lemma additionalVariants_as_map (bm : BusinessMetrics.t) (vs : Variants) :
  additionalVariants bm vs
  = map (fun e : string * TestVariant.t => variantResult bm (fst e) (snd e))
      (filter (fun e : string * TestVariant.t =>
                 isAdditionalKey (fst e) && negb (hasInvalidData (snd e)))
         vs).
Proof.
  induction vs as [| [k v] vs IH]; [reflexivity |].
  rewrite additionalVariants_cons. simpl.
  destruct (isAdditionalKey k && negb (hasInvalidData v)); simpl; congruence.
Qed.

Lemma filter_removeEntry (P : string * TestVariant.t -> bool) (key : string)
  (vs : Variants) :
  filter P (removeEntry key vs)
  = filter (fun e => P e && negb (String.eqb (fst e) key)) vs.
Proof.
  induction vs as [| [k v] vs IH]; simpl; [reflexivity |].
  destruct (String.eqb k key); simpl.
  - rewrite andb_false_r. exact IH.
  - rewrite andb_true_r. destruct (P (k, v)); [f_equal |]; exact IH.
Qed.

Lemma filter_key_absent (P : string * TestVariant.t -> bool) (key : string)
  (vs : Variants) :
  ~ In key (map fst vs) ->
  filter (fun e => P e && negb (String.eqb (fst e) key)) vs = filter P vs.
Proof.
  induction vs as [| [k v] vs IH]; simpl; [reflexivity |].
  intros Hnotin.
  assert (E : String.eqb k key = false)
    by (apply String.eqb_neq; intros ->; apply Hnotin; left; reflexivity).
  rewrite E, andb_true_r, IH by (intros H; apply Hnotin; right; exact H).
  reflexivity.
Qed.

(** Setting a key to an entry the filter rejects leaves what the filter
    keeps of the other keys. *)
Lemma filter_setEntry_rejected (P : string * TestVariant.t -> bool)
  (key : string) (z : TestVariant.t) (vs : Variants) :
  NoDup (map fst vs) -> P (key, z) = false ->
  filter P (setEntry key z vs)
  = filter (fun e => P e && negb (String.eqb (fst e) key)) vs.
Proof.
  intros Hnd Hz. induction vs as [| [k v] vs IH]; simpl.
  - rewrite Hz. reflexivity.
  - inversion Hnd as [| ? ? Hnotin Hnd']; subst.
    destruct (String.eqb k key) eqn:E; simpl.
    + apply String.eqb_eq in E. subst k.
      rewrite Hz, andb_false_r. symmetry. apply filter_key_absent, Hnotin.
    + rewrite andb_true_r, (IH Hnd'). reflexivity.
Qed.

Lemma NoDup_setEntry (key : string) (z : TestVariant.t) (vs : Variants) :
  NoDup (map fst vs) -> NoDup (map fst (setEntry key z vs)).
Proof.
  intros Hnd. destruct (in_dec string_dec key (map fst vs)) as [Hin | Hnotin].
  - rewrite keys_setEntry_present by exact Hin. exact Hnd.
  - rewrite keys_setEntry_absent by exact Hnotin.
    apply NoDup_app; [exact Hnd | repeat constructor; intros [] |].
    intros a Ha [<- | []]. exact (Hnotin Ha).
Qed.

(** [calculateResults] reads the two mandatory entries and the additional
    results only. *)
Lemma calculateResults_ext (bm : BusinessMetrics.t) (vs vs' : Variants) :
  lookup "control" vs = lookup "control" vs' ->
  lookup "variant" vs = lookup "variant" vs' ->
  additionalVariants bm vs = additionalVariants bm vs' ->
  calculateResults bm vs = calculateResults bm vs'.
Proof.
  intros Hc Hv Ha.
  unfold calculateResults, validateInputs, computeResults, getVariant.
  rewrite Hc, Hv, Ha. reflexivity.
Qed.

(** "Add Test Pair" on a state of two or three entries with distinct keys
    sets "control1" and "variant1" to empty entries, whatever they held,
    and leaves the other keys alone. The empty entries are not part of the
    results: these are the results of the state without the two keys, hence
    unchanged when neither was there. *)
Theorem addTestPair_resets_pair (bm : BusinessMetrics.t) (vs : Variants) :
  NoDup (map fst vs) ->
  (2 <= List.length vs < 4)%nat ->
  lookup "control1" (addTestPair vs) = Some (TestVariant.mk "Control 1" 0 0)
  /\ lookup "variant1" (addTestPair vs) = Some (TestVariant.mk "Variant 1" 0 0)
  /\ (forall key, key <> "control1" -> key <> "variant1" ->
        lookup key (addTestPair vs) = lookup key vs)
  /\ calculateResults bm (addTestPair vs)
     = calculateResults bm (removeEntry "variant1" (removeEntry "control1" vs))
  /\ (~ In "control1" (map fst vs) -> ~ In "variant1" (map fst vs) ->
      calculateResults bm (addTestPair vs) = calculateResults bm vs).
Proof.
  intros Hnd Hlen.
  assert (Hidx : Nat.div (List.length vs) 2 = 1%nat).
  { destruct vs as [| e1 [| e2 [| e3 [| e4 vs]]]]; simpl in *; try reflexivity; lia. }
  assert (Hadd : addTestPair vs
                 = setEntry "variant1" (TestVariant.mk "Variant 1" 0 0)
                     (setEntry "control1" (TestVariant.mk "Control 1" 0 0) vs)).
  { unfold addTestPair. rewrite Hidx. reflexivity. }
  rewrite Hadd.
  set (z1 := TestVariant.mk "Control 1" 0 0).
  set (z2 := TestVariant.mk "Variant 1" 0 0).
  set (C := fun e : string * TestVariant.t =>
              isAdditionalKey (fst e) && negb (hasInvalidData (snd e))).
  assert (Hz1 : hasInvalidData z1 = true)
    by (apply hasInvalidData_true_iff; left; simpl; lra).
  assert (Hz2 : hasInvalidData z2 = true)
    by (apply hasInvalidData_true_iff; left; simpl; lra).
  assert (Hres : calculateResults bm (setEntry "variant1" z2 (setEntry "control1" z1 vs))
                 = calculateResults bm
                     (removeEntry "variant1" (removeEntry "control1" vs))).
  { apply calculateResults_ext.
    - rewrite !lookup_setEntry_other, !lookup_removeEntry_other by discriminate.
      reflexivity.
    - rewrite !lookup_setEntry_other, !lookup_removeEntry_other by discriminate.
      reflexivity.
    - rewrite !additionalVariants_as_map. fold C. f_equal.
      rewrite (filter_setEntry_rejected C)
        by (try apply NoDup_setEntry; try exact Hnd;
            unfold C; simpl; rewrite Hz2; reflexivity).
      rewrite (filter_setEntry_rejected _ "control1" z1 vs Hnd)
        by (unfold C; simpl; rewrite Hz1; reflexivity).
      rewrite !filter_removeEntry. reflexivity. }
  split; [| split; [| split; [| split]]].
  - rewrite lookup_setEntry_other by discriminate. apply lookup_setEntry_same.
  - apply lookup_setEntry_same.
  - intros key H1 H2. rewrite !lookup_setEntry_other by assumption. reflexivity.
  - exact Hres.
  - intros Hn1 Hn2. rewrite Hres. apply calculateResults_ext.
    + rewrite !lookup_removeEntry_other by discriminate. reflexivity.
    + rewrite !lookup_removeEntry_other by discriminate. reflexivity.
    + rewrite !additionalVariants_as_map. f_equal.
      rewrite !filter_removeEntry.
      rewrite filter_key_absent by exact Hn1.
      rewrite filter_key_absent by exact Hn2. reflexivity.
Qed.

Lemma threeVariants_NoDup : NoDup (map fst threeVariants).
Proof. simpl. repeat constructor; simpl; intuition discriminate. Defined.

Lemma addTestPair_resets_pair_witness :
  NoDup (map fst threeVariants)
  /\ (2 <= List.length threeVariants < 4)%nat
  /\ lookup "variant1" threeVariants = Some (TestVariant.mk "Variant 1" 2000 300)
  /\ lookup "variant1" (addTestPair threeVariants)
     = Some (TestVariant.mk "Variant 1" 0 0).
Proof.
  assert (Hlen : (2 <= List.length threeVariants < 4)%nat) by (simpl; lia).
  split; [exact threeVariants_NoDup |]. split; [exact Hlen |].
  split; [reflexivity |].
  apply (addTestPair_resets_pair sampleMetrics threeVariants
           threeVariants_NoDup Hlen).
Defined.

(** ** Intervals of the results *)

Lemma lookup_Some_key_of_In (key : string) (v : TestVariant.t) (vs : Variants) :
  In (key, v) vs -> In key (map fst vs).
Proof. intros H. change key with (fst (key, v)). apply in_map, H. Qed.

(** Keeping some of the entries keeps their keys distinct. *)
Lemma keys_filter_NoDup (keep : string * TestVariant.t -> bool) (vs : Variants) :
  NoDup (map fst vs) -> NoDup (map fst (filter keep vs)).
Proof.
  induction vs as [| [k v] vs IH]; intros Hkeys; [exact Hkeys |].
  apply NoDup_cons_iff in Hkeys. destruct Hkeys as [Hfresh Hrest].
  cbn [filter]. destruct (keep (k, v)); [| exact (IH Hrest)].
  cbn [map fst]. apply NoDup_cons; [| exact (IH Hrest)].
  intros Hk. apply Hfresh.
  apply in_map_iff in Hk. destruct Hk as ([k' v'] & Heq & Hin).
  apply filter_In in Hin. simpl in Heq. subst k'.
  apply (lookup_Some_key_of_In k v' vs), Hin.
Qed.

Lemma find_by_key (l : list VariantResult.t) (x : VariantResult.t) :
  NoDup (map VariantResult.key l) -> In x l ->
  find (fun v => String.eqb (VariantResult.key v) (VariantResult.key x)) l
  = Some x.
Proof.
  induction l as [| a l IH]; simpl; [contradiction |].
  intros Hnd Hin. inversion Hnd as [| ? ? Hnotin Hnd']; subst.
  destruct (String.eqb (VariantResult.key a) (VariantResult.key x)) eqn:E.
  - destruct Hin as [-> | Hin]; [reflexivity |].
    apply String.eqb_eq in E. exfalso; apply Hnotin. rewrite E.
    apply in_map, Hin.
  - destruct Hin as [-> | Hin]; [| apply IH; assumption].
    rewrite String.eqb_refl in E. discriminate.
Qed.

(** The keys of the results are distinct when those of the form state
    are. *)
Lemma results_keys_NoDup (bm : BusinessMetrics.t) (vs : Variants)
  (control variant : TestVariant.t) :
  NoDup (map fst vs) ->
  NoDup (map VariantResult.key
           (variantResult bm "control" control
            :: variantResult bm "variant" variant :: additionalVariants bm vs)).
Proof.
  intros Hnd.
  assert (Hadd : forall k, In k (map VariantResult.key (additionalVariants bm vs)) ->
                   k <> "control" /\ k <> "variant").
  { intros k Hk. apply in_map_iff in Hk. destruct Hk as (x & <- & Hx).
    apply additionalVariants_In in Hx. destruct Hx as (key & v & _ & Hk & _ & ->).
    apply (isAdditionalKey_true key Hk). }
  simpl. constructor; [| constructor].
  - intros [H | H]; [discriminate | apply Hadd in H; tauto].
  - intros H. apply Hadd in H; tauto.
  - rewrite additionalVariants_as_map, map_map. simpl.
    apply keys_filter_NoDup, Hnd.
Qed.

(** On validated inputs with distinct keys, the confidence interval
    [renderAnalysis] and [renderChart] compute for a result, with the
    visitors looked up by key, is the one [exportToPDF] prints; it is
    finite, contains the rate and lies within [0, 100]. *)
Theorem result_intervals (bm : BusinessMetrics.t) (vs : Variants) :
  validated bm vs -> NoDup (map fst vs) ->
  exists r : TestResults.t,
    calculateResults bm vs = Return (Some r)
    /\ forall x, In x (TestResults.variants r) ->
         renderAnalysis_interval r x = Return (exportToPDF_interval x)
         /\ exists q lower upper : R,
              VariantResult.rate x = Fin q
              /\ exportToPDF_interval x = (Fin lower, Fin upper)
              /\ 0 <= lower <= q /\ q <= upper <= 100.
Proof.
  intros Hval Hnd.
  destruct (validated_inv bm vs Hval) as (cv & v & Hc & Hv & Hm & Hdc & Hdv).
  destruct (computeResults_found bm vs cv v Hc Hv) as (r & Hr & Hvars & _).
  cbv zeta in *.
  exists r. split; [apply calculateResults_validated; assumption |].
  intros x Hx. split.
  - unfold renderAnalysis_interval.
    rewrite find_by_key; [reflexivity | | exact Hx].
    rewrite Hvars. apply results_keys_NoDup, Hnd.
  - rewrite Hvars in Hx.
    destruct (results_form bm vs cv v x Hc Hv Hdc Hdv Hx) as (kx & vx & -> & Hdx & _).
    destruct (variantResult_rate bm kx vx Hdx) as (_ & q & Hq & Hqb).
    destruct (calculateConfidenceInterval_pos_visitors q (TestVariant.visitors vx))
      as (lower & upper & Hci & Hlo & Hhi); [apply Hdx | exact Hqb |].
    exists q, lower, upper. split; [exact Hq |].
    split; [| split; assumption].
    unfold exportToPDF_interval. rewrite Hq. exact Hci.
Qed.

Lemma result_intervals_witness :
  validated sampleMetrics fourVariants /\ NoDup (map fst fourVariants)
  /\ exists r : TestResults.t,
       calculateResults sampleMetrics fourVariants = Return (Some r)
       /\ forall x, In x (TestResults.variants r) ->
            renderAnalysis_interval r x = Return (exportToPDF_interval x).
Proof.
  split; [exact four_validated |]. split; [exact fourVariants_NoDup |].
  destruct (result_intervals sampleMetrics fourVariants four_validated
              fourVariants_NoDup) as (r & Hr & H).
  exists r. split; [exact Hr |]. intros x Hx. apply H, Hx.
Defined.

(** ** Total visitors on screen and in the export *)







(** With an additional entry of 4000 visitors and 5000 conversions, which
    the results exclude, the analysis counts 2000 visitors and displays
    "Need More Data" while the export counts 6000 and prints "Implement
    Variant". *)
Example scenario_export_differs :
  exists r : TestResults.t,
    calculateResults sampleMetrics excludedVariants = Return (Some r)
    /\ Recommendation.text (renderAnalysis_recommendation r) = "Need More Data"
    /\ Recommendation.text (exportToPDF_recommendation excludedVariants r)
       = "Implement Variant".
Proof.
  assert (Hval : validated sampleMetrics excludedVariants).
  { apply (validated_intro sampleMetrics excludedVariants sampleControl sampleVariant);
      try reflexivity; unfold validMetrics, validData; simpl; lra. }
  destruct (computeResults_found sampleMetrics excludedVariants
              sampleControl sampleVariant eq_refl eq_refl)
    as (r & Hr & Hvars & _ & _ & _ & _ & Himp & _).
  cbv zeta in *.
  assert (Hadd : additionalVariants sampleMetrics excludedVariants = []).
  { unfold excludedVariants, sampleVariants. simpl app.
    rewrite !additionalVariants_cons.
    assert (H : hasInvalidData (TestVariant.mk "Variant 1" 4000 5000) = true)
      by (apply hasInvalidData_true_iff; simpl; lra).
    rewrite H. reflexivity. }
  rewrite Hadd in Hvars, Himp. simpl fold_left in Himp.
  assert (Hi : TestResults.improvement r = Fin 50).
  { rewrite Himp.
    assert (Hb : VariantResult.rate (variantResult sampleMetrics "variant" sampleVariant)
                 = Fin (150 / 1000 * 100))
      by (simpl; apply calculateConversionRate_pos; lra).
    assert (Hc : VariantResult.rate (variantResult sampleMetrics "control" sampleControl)
                 = Fin (100 / 1000 * 100))
      by (simpl; apply calculateConversionRate_pos; lra).
    rewrite (proj1 (improvementOf_finite _ _ _ _ Hb Hc)) by lra.
    f_equal. lra. }
  exists r. split; [apply calculateResults_validated; assumption |]. split.
  - unfold renderAnalysis_recommendation, renderAnalysis_totalVisitors.
    rewrite Hvars. simpl fold_left. unfold getRecommendation. num_eval. reflexivity.
  - unfold exportToPDF_recommendation, exportToPDF_totalVisitors.
    rewrite Hi. simpl fold_left. unfold getRecommendation. num_eval. reflexivity.
Qed.

(** ** Colours *)

Lemma rgb_integers (r g b : Z) :
  rgb (IZR r) (IZR g) (IZR b) = Fin (IZR (r + g * 256 + b * 65536)).
Proof.
  unfold rgb. simpl. f_equal. rewrite !plus_IZR, !mult_IZR. reflexivity.
Qed.

(** On components between 0 and 255, [rgb] packs the three bytes, red
    lowest, into an integer between 0 and 16777215, and different colours
    get different numbers. *)
Theorem rgb_packs_bytes (r g b r' g' b' : Z) :
  (0 <= r <= 255)%Z -> (0 <= g <= 255)%Z -> (0 <= b <= 255)%Z ->
  (0 <= r' <= 255)%Z -> (0 <= g' <= 255)%Z -> (0 <= b' <= 255)%Z ->
  (exists n : Z,
     rgb (IZR r) (IZR g) (IZR b) = Fin (IZR n)
     /\ (0 <= n <= 16777215)%Z
     /\ (n mod 256 = r)%Z /\ ((n / 256) mod 256 = g)%Z /\ (n / 65536 = b)%Z)
  /\ (rgb (IZR r) (IZR g) (IZR b) = rgb (IZR r') (IZR g') (IZR b') ->
      r = r' /\ g = g' /\ b = b').
Proof.
  intros Hr Hg Hb Hr' Hg' Hb'. split.
  - exists (r + g * 256 + b * 65536)%Z.
    split; [apply rgb_integers |]. split; [lia |].
    repeat split.
    + symmetry. apply (Z.mod_unique_pos _ 256 (g + b * 256)); lia.
    + replace ((r + g * 256 + b * 65536) / 256)%Z with (g + b * 256)%Z.
      * symmetry. apply (Z.mod_unique_pos _ 256 b); lia.
      * apply (Z.div_unique_pos _ 256 _ r); lia.
    + symmetry. apply (Z.div_unique_pos _ 65536 _ (r + g * 256)); lia.
  - rewrite !rgb_integers. intros H. injection H as H.
    apply eq_IZR in H. lia.
Qed.

Lemma rgb_packs_bytes_witness :
  (0 <= 22 <= 255)%Z /\ (0 <= 163 <= 255)%Z /\ (0 <= 74 <= 255)%Z
  /\ exists n : Z,
       rgb (IZR 22) (IZR 163) (IZR 74) = Fin (IZR n)
       /\ (0 <= n <= 16777215)%Z.
Proof.
  assert (H1 : (0 <= 22 <= 255)%Z) by lia.
  assert (H2 : (0 <= 163 <= 255)%Z) by lia.
  assert (H3 : (0 <= 74 <= 255)%Z) by lia.
  split; [exact H1 |]. split; [exact H2 |]. split; [exact H3 |].
  destruct (proj1 (rgb_packs_bytes 22 163 74 22 163 74 H1 H2 H3 H1 H2 H3))
    as (n & Hn & Hb & _).
  exists n. split; assumption.
Defined.

(** ** Currency amounts *)

Section FormatCurrencyProperties.
Variable numberFormat : number -> number -> string.

(** [formatCurrency] never prints a minus sign: the digits are those of
    the absolute value, so a loss prints like the equal gain; with
    [showSign] a strictly positive amount gets a "+" in front, and a
    negative or zero amount prints as without [showSign]. *)
Theorem formatCurrency_sign (x : R) (digits : option number) :
  0 <= x ->
  let signed := Some (FormatOptions.mk (Some true) digits) in
  let plain := Some (FormatOptions.mk None digits) in
  formatCurrency numberFormat (Fin (- x)) plain
  = formatCurrency numberFormat (Fin x) plain
  /\ formatCurrency numberFormat (Fin (- x)) signed
     = formatCurrency numberFormat (Fin x) plain
  /\ (0 < x ->
      formatCurrency numberFormat (Fin x) signed
      = ("+" ++ formatCurrency numberFormat (Fin x) plain)%string)
  /\ formatCurrency numberFormat (Fin 0) signed
     = formatCurrency numberFormat (Fin 0) plain.
Proof.
  intros Hx. cbv zeta. unfold formatCurrency. simpl.
  rewrite Rabs_Ropp. unfold Num.gt; simpl.
  repeat split.
  - rewrite Rltb_false by lra. reflexivity.
  - intros Hpos. rewrite Rltb_true by lra. reflexivity.
  - rewrite Rltb_false by lra. reflexivity.
Qed.
End FormatCurrencyProperties.

Lemma formatCurrency_sign_witness :
  0 <= 1234
  /\ formatCurrency (fun _ _ => "$1,234") (Fin (Ropp 1234))
       (Some (FormatOptions.mk (Some true) None))
     = "$1,234".
Proof.
  split; [lra |].
  destruct (formatCurrency_sign (fun _ _ => "$1,234") 1234 None) as (_ & H & _);
    [lra |].
  rewrite H. reflexivity.
Defined.

(** ** Additional entries with invalid data *)

(** Whatever is written to or removed from an additional key, the
    validation result stays the same; and with distinct keys, writing an
    entry with invalid data to an additional key gives the results of the
    state without that key. *)
Theorem invalid_additional_entry_is_ignored (bm : BusinessMetrics.t)
  (key : string) (x : TestVariant.t) (vs : Variants) :
  isAdditionalKey key = true ->
  validateInputs bm (setEntry key x vs) = validateInputs bm vs
  /\ validateInputs bm (removeEntry key vs) = validateInputs bm vs
  /\ (NoDup (map fst vs) -> hasInvalidData x = true ->
      calculateResults bm (setEntry key x vs)
      = calculateResults bm (removeEntry key vs)).
Proof.
  intros Hkey. destruct (isAdditionalKey_true key Hkey) as [Hnc Hnv].
  assert (Hc : "control" <> key) by congruence.
  assert (Hv : "variant" <> key) by congruence.
  split; [| split].
  - unfold validateInputs, getVariant.
    rewrite !lookup_setEntry_other by assumption. reflexivity.
  - unfold validateInputs, getVariant.
    rewrite !lookup_removeEntry_other by assumption. reflexivity.
  - intros Hnd Hbad. apply calculateResults_ext.
    + rewrite lookup_setEntry_other, lookup_removeEntry_other by assumption.
      reflexivity.
    + rewrite lookup_setEntry_other, lookup_removeEntry_other by assumption.
      reflexivity.
    + rewrite !additionalVariants_as_map. f_equal.
      rewrite filter_setEntry_rejected, filter_removeEntry;
        [reflexivity | exact Hnd |].
      simpl. rewrite Hbad. apply andb_false_r.
Qed.

Lemma invalid_additional_entry_is_ignored_witness :
  isAdditionalKey "variant1" = true
  /\ NoDup (map fst threeVariants)
  /\ hasInvalidData (TestVariant.mk "Variant 1" 4000 5000) = true
  /\ calculateResults sampleMetrics
       (setEntry "variant1" (TestVariant.mk "Variant 1" 4000 5000) threeVariants)
     = calculateResults sampleMetrics (removeEntry "variant1" threeVariants).
Proof.
  assert (Hbad : hasInvalidData (TestVariant.mk "Variant 1" 4000 5000) = true)
    by (apply hasInvalidData_true_iff; simpl; lra).
  split; [reflexivity |]. split; [exact threeVariants_NoDup |].
  split; [exact Hbad |].
  apply (invalid_additional_entry_is_ignored sampleMetrics "variant1"
           (TestVariant.mk "Variant 1" 4000 5000) threeVariants eq_refl);
    [exact threeVariants_NoDup | exact Hbad].
Defined.

(** ** Business metrics and statistics *)

Lemma better_sameStatistics (a a' b b' : VariantResult.t) :
  sameStatistics a a' -> sameStatistics b b' ->
  sameStatistics (better a b) (better a' b').
Proof.
  intros Ha Hb. unfold better.
  pose proof Ha as (_ & _ & Hra & _). pose proof Hb as (_ & _ & Hrb & _).
  rewrite Hra, Hrb.
  destruct (VariantResult.rate b' >? VariantResult.rate a')%num; assumption.
Qed.

Lemma fold_better_sameStatistics (l l' : list VariantResult.t) :
  Forall2 sameStatistics l l' ->
  forall a a', sameStatistics a a' ->
  sameStatistics (fold_left better l a) (fold_left better l' a').
Proof.
  induction 1 as [| x x' l l' Hx _ IH]; intros a a' Ha; simpl; [exact Ha |].
  apply IH, better_sameStatistics; assumption.
Qed.

Lemma additionalVariants_sameStatistics (bm bm' : BusinessMetrics.t)
  (vs : Variants) :
  Forall2 sameStatistics (additionalVariants bm vs) (additionalVariants bm' vs).
Proof.
  rewrite !additionalVariants_as_map.
  induction (filter _ vs) as [| e es IH]; simpl; constructor; [| exact IH].
  repeat split.
Qed.

Lemma isSignificant_sameStatistics (c c' x x' : VariantResult.t) :
  sameStatistics c c' -> sameStatistics x x' ->
  isSignificant c x = isSignificant c' x'.
Proof.
  intros (_ & _ & Hrc & Hec & _) (Hk & _ & Hrx & Hex & _).
  unfold isSignificant, isControl, zScore. rewrite Hk, Hrc, Hec, Hrx, Hex.
  reflexivity.
Qed.

(** The business metrics enter the revenue figures only: on inputs valid
    for two sets of business metrics, the winner, the improvement, the risk
    level and, revenue apart, every result are the same. *)
Theorem business_metrics_affect_revenue_only
  (bm bm' : BusinessMetrics.t) (vs : Variants) :
  validated bm vs -> validated bm' vs ->
  exists r r' : TestResults.t,
    calculateResults bm vs = Return (Some r)
    /\ calculateResults bm' vs = Return (Some r')
    /\ TestResults.winner r = TestResults.winner r'
    /\ TestResults.improvement r = TestResults.improvement r'
    /\ TestResults.riskLevel r = TestResults.riskLevel r'
    /\ Forall2 sameStatistics (TestResults.variants r) (TestResults.variants r').
Proof.
  intros Hval Hval'.
  destruct (validated_inv bm vs Hval) as (cv & v & Hc & Hv & _).
  destruct (computeResults_found bm vs cv v Hc Hv)
    as (r & Hr & Hvars & _ & _ & _ & Hwin & Himp & _ & Hrisk & _).
  destruct (computeResults_found bm' vs cv v Hc Hv)
    as (r' & Hr' & Hvars' & _ & _ & _ & Hwin' & Himp' & _ & Hrisk' & _).
  cbv zeta in *.
  assert (HcR : sameStatistics (variantResult bm "control" cv)
                  (variantResult bm' "control" cv)) by (repeat split).
  assert (HvR : sameStatistics (variantResult bm "variant" v)
                  (variantResult bm' "variant" v)) by (repeat split).
  pose proof (additionalVariants_sameStatistics bm bm' vs) as Hrest.
  pose proof (fold_better_sameStatistics _ _ Hrest _ _ HvR) as Hbest.
  assert (Hall : Forall2 sameStatistics (TestResults.variants r)
                   (TestResults.variants r'))
    by (rewrite Hvars, Hvars'; repeat constructor; try exact Hrest; reflexivity).
  assert (Hi : TestResults.improvement r = TestResults.improvement r').
  { rewrite Himp, Himp'. unfold improvementOf.
    destruct Hbest as (_ & _ & -> & _). reflexivity. }
  exists r, r'.
  split; [apply calculateResults_validated; assumption |].
  split; [apply calculateResults_validated; assumption |].
  split; [| split; [exact Hi | split; [| exact Hall]]].
  - rewrite Hwin, Hwin'. destruct Hbest as (_ & -> & -> & _). reflexivity.
  - assert (Hsig : map (isSignificant (variantResult bm "control" cv))
                     (TestResults.variants r)
                   = map (isSignificant (variantResult bm' "control" cv))
                       (TestResults.variants r')).
    { clear - Hall HcR.
      induction Hall as [| x x' l l' Hx _ IH]; simpl; [reflexivity |].
      rewrite IH. f_equal. apply isSignificant_sameStatistics; assumption. }
    rewrite Hrisk, Hrisk', Hi, Hsig. reflexivity.
Qed.

Lemma business_metrics_affect_revenue_only_witness :
  validated sampleMetrics sampleVariants
  /\ validated (BusinessMetrics.mk 2000 50 500) sampleVariants
  /\ exists r r' : TestResults.t,
       calculateResults sampleMetrics sampleVariants = Return (Some r)
       /\ calculateResults (BusinessMetrics.mk 2000 50 500) sampleVariants
          = Return (Some r')
       /\ TestResults.riskLevel r = TestResults.riskLevel r'.
Proof.
  assert (H' : validated (BusinessMetrics.mk 2000 50 500) sampleVariants).
  { apply (validated_intro _ sampleVariants sampleControl sampleVariant);
      try reflexivity; unfold validMetrics, validData; simpl; lra. }
  split; [exact sample_validated |]. split; [exact H' |].
  destruct (business_metrics_affect_revenue_only sampleMetrics
              (BusinessMetrics.mk 2000 50 500) sampleVariants sample_validated H')
    as (r & r' & Hr & Hr' & _ & _ & Hrisk & _).
  exists r, r'. auto.
Defined.

(** * Results in terms of the entries *)

(** ** Selected entries and expected fields *)

Lemma isAdditionalKey_iff (key : string) :
  isAdditionalKey key = true <-> key <> "control" /\ key <> "variant".
Proof.
  split; [apply isAdditionalKey_true |].
  intros [Hc Hv]. unfold isAdditionalKey. cbn [existsb].
  apply String.eqb_neq in Hc, Hv. rewrite Hc, Hv. reflexivity.
Qed.

Lemma contributes_iff (e : string * TestVariant.t) :
  isAdditionalKey (fst e) && negb (hasInvalidData (snd e)) = true
  <-> additionalValid e.
Proof.
  rewrite andb_true_iff, negb_true_iff, isAdditionalKey_iff,
    hasInvalidData_false_iff.
  unfold additionalValid, validData. tauto.
Qed.

Lemma selection_contributing (vs : Variants) :
  selection additionalValid vs
    (filter (fun e : string * TestVariant.t =>
               isAdditionalKey (fst e) && negb (hasInvalidData (snd e))) vs).
Proof.
  induction vs as [| e vs IH]; [constructor |].
  cbn [filter].
  destruct (isAdditionalKey (fst e) && negb (hasInvalidData (snd e))) eqn:E.
  - apply selection_keep; [apply contributes_iff, E | exact IH].
  - apply selection_skip; [| exact IH].
    intros H. apply contributes_iff in H. congruence.
Qed.

Lemma selection_unique {A : Type} (P : A -> Prop) (l l1 l2 : list A) :
  selection P l l1 -> selection P l l2 -> l1 = l2.
Proof.
  intros H1. revert l2.
  induction H1 as [| a l l1 Ha _ IH | a l l1 Ha _ IH]; intros l2 H2;
    inversion H2; subst; try contradiction; auto.
  f_equal. apply IH. assumption.
Qed.

Lemma selection_In {A : Type} (P : A -> Prop) (l l' : list A) :
  selection P l l' -> forall a, In a l' -> In a l /\ P a.
Proof.
  induction 1 as [| a l l' Ha _ IH | a l l' Ha _ IH]; intros x Hx.
  - destruct Hx.
  - destruct Hx as [<- | Hx]; [split; [left; reflexivity | exact Ha] |].
    destruct (IH x Hx). split; [right |]; assumption.
  - destruct (IH x Hx). split; [right |]; assumption.
Qed.

Lemma expectedRate_fin (e : TestVariant.t) :
  0 < TestVariant.visitors e ->
  expectedRate e
  = Fin (TestVariant.conversions e / TestVariant.visitors e * 100).
Proof. intros Hv. unfold expectedRate. num_eval. reflexivity. Qed.

(** With visitors, the result built for an entry has the expected fields:
    the guards for [visitors === 0] of the two utilities do not apply. *)
Lemma variantResult_describes (bm : BusinessMetrics.t)
  (entry : string * TestVariant.t) :
  0 < TestVariant.visitors (snd entry) ->
  describes bm entry (variantResult bm (fst entry) (snd entry)).
Proof.
  intros Hv.
  assert (Hg : (Fin (TestVariant.visitors (snd entry)) === 0)%num = false)
    by (simpl; apply Reqb_false; lra).
  assert (Hr : calculateConversionRate (Fin (TestVariant.conversions (snd entry)))
                 (Fin (TestVariant.visitors (snd entry)))
               = expectedRate (snd entry)).
  { unfold calculateConversionRate. rewrite Hg. reflexivity. }
  unfold describes, variantResult. cbv zeta.
  cbn [VariantResult.key VariantResult.name VariantResult.rate
       VariantResult.error VariantResult.revenue VariantResult.visitors].
  rewrite Hr. repeat split.
  unfold calculateStandardError. rewrite Hg. reflexivity.
Qed.

Lemma describes_map (bm : BusinessMetrics.t) (l : list (string * TestVariant.t)) :
  (forall e, In e l -> 0 < TestVariant.visitors (snd e)) ->
  Forall2 (describes bm) l
    (map (fun e : string * TestVariant.t => variantResult bm (fst e) (snd e)) l).
Proof.
  induction l as [| e l IH]; intros Hv; simpl; constructor.
  - apply variantResult_describes, Hv. left; reflexivity.
  - apply IH. intros x Hx. apply Hv. right; exact Hx.
Qed.

Lemma forallb_agree {A : Type} (g h : A -> bool) (l : list A) :
  (forall x, In x l -> g x = h x) -> forallb g l = forallb h l.
Proof.
  induction l as [| a l IH]; intros H; simpl; [reflexivity |].
  rewrite (H a) by (left; reflexivity). f_equal.
  apply IH. intros x Hx. apply H. right; exact Hx.
Qed.

Lemma every_map {A : Type} (g : A -> bool) (l : list A) :
  forallb (fun s : bool => s) (map g l) = forallb g l.
Proof. induction l as [| a l IH]; simpl; [reflexivity | rewrite IH; reflexivity]. Qed.

(** ** The results of validated inputs, field by field *)

(** On validated inputs the results are those of the "control" entry, the
    "variant" entry and the additional entries with valid data, in the
    order of the object. The best variant is the first of the non-control
    ones with the greatest rate; winner, improvement, monthly revenue and
    risk level are as the source computes them from it. *)
Lemma calculateResults_described (bm : BusinessMetrics.t) (vs : Variants) :
  validated bm vs ->
  exists (control variant : TestVariant.t) (es : list (string * TestVariant.t))
         (r : TestResults.t) (before after : list (string * TestVariant.t))
         (best : string * TestVariant.t),
    lookup "control" vs = Some control
    /\ lookup "variant" vs = Some variant
    /\ validData control /\ validData variant
    /\ selection additionalValid vs es
    /\ calculateResults bm vs = Return (Some r)
    /\ Forall2 (describes bm) (("control", control) :: ("variant", variant) :: es)
         (TestResults.variants r)
    /\ ("variant", variant) :: es = before ++ best :: after
    /\ (forall e, In e before ->
          (expectedRate (snd e) <? expectedRate (snd best))%num = true)
    /\ (forall e, In e after ->
          (expectedRate (snd e) <=? expectedRate (snd best))%num = true)
    /\ TestResults.winner r
       = (if (expectedRate (snd best) >? expectedRate control)%num
          then TestVariant.name (snd best) else TestVariant.name control)
    /\ TestResults.improvement r = expectedImprovement (snd best) control
    /\ TestResults.monthlyRevenue r = expectedRevenue bm (snd best)
    /\ TestResults.riskLevel r
       = (if forallb (fun e : string * TestVariant.t =>
                        (expectedZScore (snd e) control >? 1.96)%num)
               (("variant", variant) :: es)
          then (if (Num.abs (TestResults.improvement r) >? 20)%num
                then low else medium)
          else high).
Proof.
  intros Hval.
  destruct (validated_inv bm vs Hval) as (c & v & Hc & Hv & Hm & Hdc & Hdv).
  destruct (computeResults_found bm vs c v Hc Hv)
    as (r & Hr & Hvars & _ & _ & _ & Hwin & Himp & Hrev & Hrisk & _).
  cbv zeta in *.
  set (f := fun e : string * TestVariant.t => variantResult bm (fst e) (snd e)).
  set (es := filter (fun e : string * TestVariant.t =>
                       isAdditionalKey (fst e) && negb (hasInvalidData (snd e))) vs).
  assert (Hrest : additionalVariants bm vs = map f es)
    by apply additionalVariants_as_map.
  rewrite Hrest in *.
  change (variantResult bm "variant" v) with (f ("variant", v)) in *.
  change (variantResult bm "control" c) with (f ("control", c)) in *.
  set (cands := ("variant", v) :: es) in *.
  assert (Hsel : selection additionalValid vs es) by apply selection_contributing.
  assert (Hcv : forall e, In e cands ->
                  0 < TestVariant.visitors (snd e) /\ fst e <> "control").
  { intros e [<- | He]; [split; [apply Hdv | discriminate] |].
    destruct (selection_In _ _ _ Hsel e He) as [_ (Hk & _ & Hvis & _)]. auto. }
  assert (Hd : forall e, 0 < TestVariant.visitors (snd e) -> describes bm e (f e))
    by (intros e; apply variantResult_describes).
  assert (Hdesc : Forall2 (describes bm) (("control", c) :: cands)
                    (TestResults.variants r)).
  { rewrite Hvars. constructor; [apply Hd, Hdc |].
    change (f ("variant", v) :: map f es) with (map f cands).
    apply describes_map. intros e He. apply Hcv, He. }
  assert (Hrate : forall e, In e cands ->
                    VariantResult.rate (f e) = expectedRate (snd e))
    by (intros e He; apply (Hd e), Hcv, He).
  assert (Hratec : VariantResult.rate (f ("control", c)) = expectedRate c)
    by (apply (Hd ("control", c)), Hdc).
  (* the reduction, on the entries *)
  destruct (fold_better_first_max (f ("variant", v)) (map f es))
    as (before_r & after_r & Hsplit & Hb & Ha).
  { intros x Hx. change (f ("variant", v) :: map f es) with (map f cands) in Hx.
    apply in_map_iff in Hx. destruct Hx as (e & <- & He).
    rewrite (Hrate e He), expectedRate_fin by (apply Hcv, He). exact I. }
  set (best_r := fold_left better (map f es) (f ("variant", v))) in *.
  change (f ("variant", v) :: map f es) with (map f cands) in Hsplit.
  destruct (map_eq_app _ _ _ _ Hsplit) as (before & tail & Hcands & Hbefore & Htail).
  destruct (map_eq_cons _ _ Htail) as (best & after & -> & Hbest & Hafter).
  assert (Hin : forall e, In e before \/ e = best \/ In e after -> In e cands).
  { intros e He. rewrite Hcands. apply in_or_app.
    destruct He as [He | [-> | He]]; [left; exact He | right; left; reflexivity |].
    right; right; exact He. }
  assert (Hrb : VariantResult.rate best_r = expectedRate (snd best))
    by (rewrite <- Hbest; apply Hrate, Hin; auto).
  exists c, v, es, r, before, after, best.
  split; [exact Hc |]. split; [exact Hv |].
  split; [exact Hdc |]. split; [exact Hdv |]. split; [exact Hsel |].
  split; [apply calculateResults_validated; assumption |].
  split; [exact Hdesc |]. split; [exact Hcands |].
  split; [| split; [| split; [| split; [| split]]]].
  - intros e He. rewrite <- (Hrate e) by (apply Hin; auto). rewrite <- Hrb.
    apply Hb. rewrite <- Hbefore. apply in_map, He.
  - intros e He. rewrite <- (Hrate e) by (apply Hin; auto). rewrite <- Hrb.
    apply Ha. rewrite <- Hafter. apply in_map, He.
  - rewrite Hwin, Hrb, Hratec. rewrite <- Hbest.
    destruct (Hd best) as (_ & Hname & _); [apply Hcv, Hin; auto |].
    rewrite Hname. reflexivity.
  - rewrite Himp. unfold improvementOf, expectedImprovement.
    rewrite Hrb, Hratec. reflexivity.
  - rewrite Hrev, <- Hbest.
    apply (Hd best). apply Hcv, Hin; auto.
  - rewrite Hrisk, Hvars.
    change (f ("variant", v) :: map f es) with (map f cands).
    cbn [map forallb]. unfold isSignificant at 1.
    change (isControl (f ("control", c))) with true. cbn [andb].
    rewrite map_map, every_map.
    rewrite (forallb_agree _ (fun e : string * TestVariant.t =>
                                (expectedZScore (snd e) c >? 1.96)%num));
      [reflexivity |].
    intros e He. destruct (Hcv e He) as [Hvis Hkey].
    unfold isSignificant, isControl. simpl VariantResult.key.
    apply String.eqb_neq in Hkey. rewrite Hkey.
    unfold zScore, expectedZScore.
    destruct (Hd e Hvis) as (_ & _ & -> & -> & _).
    destruct (Hd ("control", c)) as (_ & _ & -> & -> & _); [apply Hdc |].
    reflexivity.
Qed.

(** ** Best variant and winner *)



(** ** Risk level *)



(** ** The theorems at sample inputs *)



Ltac not_additional :=
  let H := fresh in
  intros H; unfold additionalValid in H; simpl in H;
  destruct H as (? & ? & _); congruence.










(** ** Recommendation and winner *)



(** ** A significant variant *)

Lemma sample_selection : selection additionalValid sampleVariants [].
Proof.
  unfold sampleVariants.
  apply selection_skip; [not_additional |].
  apply selection_skip; [not_additional |].
  apply selection_nil.
Qed.

(** The z-score of the sample variant (150 of 1000) against the sample
    control (100 of 1000) is above 1.96: the squared errors add up to
    2.175, whose square root is below 1.5, and the rates are 5 apart. *)
Lemma sample_zScore_significant :
  (expectedZScore sampleVariant sampleControl >? 1.96)%num = true.
Proof.
  unfold expectedZScore, expectedError.
  rewrite !expectedRate_fin by (simpl; lra). simpl TestVariant.visitors.
  simpl TestVariant.conversions.
  set (a := 150 / 1000 * 100). set (b := 100 / 1000 * 100).
  set (xa := a / 100 * (1 - a / 100) / 1000).
  set (xb := b / 100 * (1 - b / 100) / 1000).
  assert (Hxa : 0 <= xa) by (unfold xa, a; lra).
  assert (Hxb : 0 <= xb) by (unfold xb, b; lra).
  assert (Ea : (Num.sqrt (Fin a / 100 * (1 - Fin a / 100) / Fin 1000) * 100)%num
               = Fin (R_sqrt.sqrt xa * 100)).
  { num_eval. fold xa. rewrite Rltb_false by lra. reflexivity. }
  assert (Eb : (Num.sqrt (Fin b / 100 * (1 - Fin b / 100) / Fin 1000) * 100)%num
               = Fin (R_sqrt.sqrt xb * 100)).
  { num_eval. fold xb. rewrite Rltb_false by lra. reflexivity. }
  rewrite Ea, Eb. unfold Num.pow2. cbn [Num.mul Num.add Num.sub Num.abs].
  set (s := R_sqrt.sqrt xa * 100 * (R_sqrt.sqrt xa * 100)
            + R_sqrt.sqrt xb * 100 * (R_sqrt.sqrt xb * 100)).
  assert (Hs : s = 2.175).
  { unfold s.
    replace (R_sqrt.sqrt xa * 100 * (R_sqrt.sqrt xa * 100))
      with (10000 * (R_sqrt.sqrt xa * R_sqrt.sqrt xa)) by ring.
    replace (R_sqrt.sqrt xb * 100 * (R_sqrt.sqrt xb * 100))
      with (10000 * (R_sqrt.sqrt xb * R_sqrt.sqrt xb)) by ring.
    rewrite !sqrt_sqrt by assumption. unfold xa, xb, a, b. lra. }
  assert (Hpos : 0 < R_sqrt.sqrt s) by (apply sqrt_lt_R0; lra).
  assert (Hup : R_sqrt.sqrt s < 1.5).
  { rewrite <- (sqrt_square 1.5) by lra. apply sqrt_lt_1_alt. lra. }
  assert (Habs : Rabs (a - b) = 5).
  { unfold a, b. rewrite Rabs_pos_eq; lra. }
  unfold Num.sqrt. rewrite Rltb_false by lra.
  unfold Num.div. rewrite Reqb_false by lra.
  unfold Num.gt, Num.lt. apply Rltb_true. rewrite Habs.
  assert (Hi : 0 < / R_sqrt.sqrt s) by (apply Rinv_0_lt_compat; exact Hpos).
  assert (Hr : R_sqrt.sqrt s * / R_sqrt.sqrt s = 1) by (apply Rinv_r; lra).
  unfold Rdiv. nra.
Qed.

(** The sample inputs give the risk level low: the variant is significant
    and the improvement is above 20. *)
Example scenario_risk_low :
  exists r : TestResults.t,
    calculateResults sampleMetrics sampleVariants = Return (Some r)
    /\ TestResults.riskLevel r = low.
Proof.
  destruct (calculateResults_described sampleMetrics sampleVariants sample_validated)
    as (c & v & es & r & before & after & best & Hc & Hv & _ & _ & Hsel
        & Hr & _ & Hsplit & _ & _ & _ & Himp & _ & Hrisk).
  injection Hc as <-. injection Hv as <-.
  rewrite (selection_unique _ _ _ _ Hsel sample_selection) in Hsplit, Hrisk.
  assert (Hbest : best = ("variant", sampleVariant)).
  { destruct before as [| b1 before]; [injection Hsplit as <- _; reflexivity |].
    injection Hsplit as _ H. destruct before; discriminate. }
  subst best. exists r. split; [exact Hr |].
  rewrite Hrisk. cbn [forallb snd]. rewrite sample_zScore_significant. cbn [andb].
  rewrite Himp. unfold expectedImprovement. cbn [snd].
  rewrite !expectedRate_fin by (simpl; lra). simpl TestVariant.visitors.
  simpl TestVariant.conversions. num_eval.
  rewrite Rabs_pos_eq by lra. rdecide. reflexivity.
Qed.
